(** * dival.measure: the measure registry and the built-in measures

    A shallow embedding of [dival/measure.py]: the process-wide registry
    [Measure.measure_dict] with the renaming done by [Measure.__init__], the
    four built-in measures [L2Measure], [MSEMeasure], [PSNRMeasure] and
    [SSIMMeasure], and the adapter [_OperatorForFixedGroundTruth].

    Numbers.  numpy computes in binary64.  The embedding keeps the special
    values of that format ([inf], [-inf], [nan]) and their propagation rules,
    and idealises every finite value as a real number: rounding, overflow of
    finite values and the sign of zero are not represented.  The properties
    stated below are therefore kept to what does not depend on rounding: which
    operations a result is composed of, where the special values appear, which
    exception is raised, exact cases (zero differences, one entry), signs and
    order.  Identities of exact arithmetic are not claimed for the values the
    code returns; [Binary64] below evaluates one of them in machine
    arithmetic.

    Arrays.  An array is an array of floats; the integer dtypes of numpy,
    whose arithmetic wraps around, are not represented.  The measures only
    reduce over all entries of an array ([mean], [max], [min], [norm] of the
    flattened data), so an array is represented by the list of its entries
    and its shape by the length of that list, which is exact for
    one-dimensional arrays and for arrays of one common shape. *)

From Stdlib Require Import PrimFloat Reals Lra Lia ZArith.
From stdpp Require Import base option list strings pretty gmap.

(** ** Outcomes of Python calls *)

Inductive exn : Type :=
  | ValueError
  | TypeError
  | AttributeError
  | OpDomainError.

(** A call returns a value, raises, or (in a loop of the embedding that was
    not given enough steps) has not finished yet. *)
Inductive outcome (A : Type) : Type :=
  | Ok (a : A)
  | Raise (e : exn)
  | OutOfFuel.
Arguments Ok {A} a.
Arguments Raise {A} e.
Arguments OutOfFuel {A}.

(** [outcome] is an error monad; stdpp's [x ← c; k] notation sequences calls
    and propagates the first exception. *)
#[global] Instance outcome_ret : MRet outcome := λ A a, Ok a.
#[global] Instance outcome_bind : MBind outcome := λ A B k c,
  match c with
  | Ok a => k a
  | Raise e => Raise e
  | OutOfFuel => OutOfFuel
  end.

(** ** numpy floats *)

Module Np.

Open Scope R_scope.

Inductive npfloat : Type :=
  | Fin (x : R)
  | PInf
  | NInf
  | NaN.

Definition is_finite (a : npfloat) : Prop :=
  match a with Fin _ => True | _ => False end.

#[global] Instance is_finite_dec a : Decision (is_finite a) :=
  match a with
  | Fin _ => left I
  | _ => right (λ H, H)
  end.

(** Sign of a real, by trichotomy. *)
Definition Rsign (x : R) : comparison :=
  match total_order_T x 0 with
  | inleft (left _) => Lt
  | inleft (right _) => Eq
  | inright _ => Gt
  end.

Definition sign (a : npfloat) : option comparison :=
  match a with
  | Fin x => Some (Rsign x)
  | PInf => Some Gt
  | NInf => Some Lt
  | NaN => None
  end.

(** The infinity of the sign [s1 * s2]; [nan] when one factor is zero. *)
Definition inf_of_signs (s1 s2 : comparison) : npfloat :=
  match s1, s2 with
  | Eq, _ | _, Eq => NaN
  | Gt, Gt | Lt, Lt => PInf
  | Gt, Lt | Lt, Gt => NInf
  end.

Definition neg (a : npfloat) : npfloat :=
  match a with
  | Fin x => Fin (- x)
  | PInf => NInf
  | NInf => PInf
  | NaN => NaN
  end.

Definition add (a b : npfloat) : npfloat :=
  match a, b with
  | NaN, _ | _, NaN => NaN
  | Fin x, Fin y => Fin (x + y)
  | PInf, NInf | NInf, PInf => NaN
  | PInf, _ | _, PInf => PInf
  | NInf, _ | _, NInf => NInf
  end.

Definition sub (a b : npfloat) : npfloat := add a (neg b).

Definition mul (a b : npfloat) : npfloat :=
  match a, b with
  | NaN, _ | _, NaN => NaN
  | Fin x, Fin y => Fin (x * y)
  | _, _ =>
      match sign a, sign b with
      | Some s1, Some s2 => inf_of_signs s1 s2
      | _, _ => NaN
      end
  end.

(** [a / b]; a zero divisor is the positive zero. *)
Definition div (a b : npfloat) : npfloat :=
  match a, b with
  | NaN, _ | _, NaN => NaN
  | Fin x, Fin y =>
      match Rsign y with
      | Eq => inf_of_signs (Rsign x) Gt
      | _ => Fin (x / y)
      end
  | Fin _, _ => Fin 0
  | _, Fin y =>
      match sign a, Rsign y with
      | Some s, Eq => inf_of_signs s Gt
      | Some s, sy => inf_of_signs s sy
      | None, _ => NaN
      end
  | _, _ => NaN
  end.

(** [np.sqrt] *)
Definition sqrt (a : npfloat) : npfloat :=
  match a with
  | Fin x => match Rsign x with Lt => NaN | _ => Fin (R_sqrt.sqrt x) end
  | PInf => PInf
  | NInf | NaN => NaN
  end.

(** [np.log10] *)
Definition log10 (a : npfloat) : npfloat :=
  match a with
  | Fin x =>
      match Rsign x with
      | Gt => Fin (ln x / ln 10)
      | Eq => NInf
      | Lt => NaN
      end
  | PInf => PInf
  | NInf | NaN => NaN
  end.

(** [a == b]: false as soon as one side is [nan]. *)
Definition eqb (a b : npfloat) : bool :=
  match a, b with
  | Fin x, Fin y => if Req_dec_T x y then true else false
  | PInf, PInf | NInf, NInf => true
  | _, _ => false
  end.

(** [a <= b]: false as soon as one side is [nan]. *)
Definition le (a b : npfloat) : Prop :=
  match a, b with
  | NaN, _ | _, NaN => False
  | Fin x, Fin y => x <= y
  | NInf, _ | _, PInf => True
  | _, _ => False
  end.

(** [bool(a)]: every float but zero is truthy, [nan] included. *)
Definition truthy (a : npfloat) : bool := negb (eqb a (Fin 0)).

(** The larger (smaller) of two entries as [np.max] ([np.min]) reduces them:
    [nan] wins over everything. *)
Definition max2 (a b : npfloat) : npfloat :=
  match a, b with
  | NaN, _ | _, NaN => NaN
  | Fin x, Fin y => Fin (Rmax x y)
  | PInf, _ | _, PInf => PInf
  | NInf, c | c, NInf => c
  end.

Definition min2 (a b : npfloat) : npfloat :=
  match a, b with
  | NaN, _ | _, NaN => NaN
  | Fin x, Fin y => Fin (Rmin x y)
  | NInf, _ | _, NInf => NInf
  | PInf, c | c, PInf => c
  end.

(** Not negative and not [-inf]: what a sum of squares can be. *)
Definition not_negative (a : npfloat) : Prop :=
  match a with
  | Fin x => 0 <= x
  | PInf | NaN => True
  | NInf => False
  end.

(** *** Arrays *)

Definition ndarray : Type := list npfloat.

(** [a - b] on arrays: entry by entry for two arrays of one shape, with
    numpy's broadcasting of a one-entry operand, and [ValueError] for
    one-dimensional arrays of other lengths.  (Broadcasting between different
    shapes of more dimensions is not represented.) *)
Definition sub_arrays (a b : ndarray) : outcome ndarray :=
  if decide (length a = length b) then Ok (zip_with sub a b)
  else match a, b with
       | [x], _ => Ok (map (λ y, sub x y) b)
       | _, [y] => Ok (map (λ x, sub x y) a)
       | _, _ => Raise ValueError
       end.

(** [a ** 2] *)
Definition square (a : ndarray) : ndarray := map (λ x, mul x x) a.

(** [np.sum] *)
Definition sum (a : ndarray) : npfloat := foldr add (Fin 0) a.

(** [np.mean]: the sum divided by the number of entries ([nan] for an empty
    array). *)
Definition mean (a : ndarray) : npfloat := div (sum a) (Fin (INR (length a))).

(** [np.max], [np.min]: [ValueError] on an empty array. *)
Definition max (a : ndarray) : outcome npfloat :=
  match a with
  | [] => Raise ValueError
  | x :: l => Ok (foldl max2 x l)
  end.

Definition min (a : ndarray) : outcome npfloat :=
  match a with
  | [] => Raise ValueError
  | x :: l => Ok (foldl min2 x l)
  end.

(** [np.linalg.norm] of a flat array: the square root of its dot product with
    itself. *)
Definition linalg_norm (a : ndarray) : npfloat := sqrt (sum (square a)).

End Np.

Import Np (npfloat, Fin, PInf, NInf, NaN, ndarray).

(** ** Python numbers, classes and instances *)

(** A number given as configuration: a Python [int] or a [float]. *)
Inductive pynum : Type :=
  | PyInt (z : Z)
  | PyFloat (x : npfloat).

(** [bool(v)] *)
Definition truthy (v : pynum) : bool :=
  match v with
  | PyInt z => negb (Z.eqb z 0)
  | PyFloat x => Np.truthy x
  end.

(** The float numpy computes with when it is handed a [v] that it takes as a
    number (see [is_numeric]). *)
Definition to_float (v : pynum) : npfloat :=
  match v with
  | PyInt z => Fin (IZR z)
  | PyFloat x => x
  end.

(** Whether numpy takes [v] as a number at all: a Python [int] that fits none
    of its 64-bit integer types, signed or unsigned, is wrapped as an object,
    and a function such as [np.log10] refuses it with [TypeError]. *)
Definition is_numeric (v : pynum) : bool :=
  match v with
  | PyInt z => (- 2 ^ 63 <=? z)%Z && (z <? 2 ^ 64)%Z
  | PyFloat _ => true
  end.

(** [np.log10(v)] up to the logarithm itself: its argument as a float. *)
Definition log10_argument (v : pynum) : outcome npfloat :=
  if is_numeric v then Ok (to_float v) else Raise TypeError.

(** Keyword arguments: a dict from names to values. *)
Abbreviation kwargs := (gmap string pynum).

(** The classes of the module and their subclasses.  A subclass has a name,
    may declare a [short_name] class attribute of its own (a [str] or [None])
    and may define [apply]; what it does not declare it inherits from its
    base.  [__init__] is inherited. *)
Inductive pyclass : Type :=
  | Measure
  | L2Measure
  | MSEMeasure
  | PSNRMeasure
  | SSIMMeasure
  | Subclass (name : string) (short_name : option (option string))
      (apply : option (ndarray → ndarray → outcome npfloat)) (base : pyclass).

(** [cls.__name__] *)
Definition class_name (cls : pyclass) : string :=
  match cls with
  | Measure => "Measure"
  | L2Measure => "L2Measure"
  | MSEMeasure => "MSEMeasure"
  | PSNRMeasure => "PSNRMeasure"
  | SSIMMeasure => "SSIMMeasure"
  | Subclass name _ _ _ => name
  end.

(** [cls.short_name]: the class attribute, looked up along the bases.  The
    value is a [str] or [None]; [Measure] itself declares the empty string. *)
Fixpoint class_short_name (cls : pyclass) : option string :=
  match cls with
  | Measure => Some ""
  | L2Measure => Some "l2"
  | MSEMeasure => Some "mse"
  | PSNRMeasure => Some "psnr"
  | SSIMMeasure => Some "ssim"
  | Subclass _ (Some v) _ _ => v
  | Subclass _ None _ base => class_short_name base
  end.

(** The [apply] a class ends up with. *)
Inductive apply_impl : Type :=
  | AbstractApply
  | L2Apply
  | MSEApply
  | PSNRApply
  | SSIMApply
  | UserApply (f : ndarray → ndarray → outcome npfloat).

Fixpoint class_apply (cls : pyclass) : apply_impl :=
  match cls with
  | Measure => AbstractApply
  | L2Measure => L2Apply
  | MSEMeasure => MSEApply
  | PSNRMeasure => PSNRApply
  | SSIMMeasure => SSIMApply
  | Subclass _ _ (Some f) _ => UserApply f
  | Subclass _ _ None base => class_apply base
  end.

(** The [__init__] a class ends up with. *)
Inductive init_impl : Type :=
  | MeasureInit
  | PSNRInit
  | SSIMInit.

Fixpoint class_init (cls : pyclass) : init_impl :=
  match cls with
  | Measure | L2Measure | MSEMeasure => MeasureInit
  | PSNRMeasure => PSNRInit
  | SSIMMeasure => SSIMInit
  | Subclass _ _ _ base => class_init base
  end.

(** An instance: its class and the attributes [__init__] may set on it.
    [inst_short_name] is the entry of the instance's own [__dict__]; it is
    absent until [__init__] assigns [self.short_name]. *)
Record instance : Type := {
  inst_class : pyclass;
  inst_short_name : option string;
  inst_data_range : option pynum;
  inst_kwargs : kwargs;
}.

Definition new_instance (cls : pyclass) : instance :=
  {| inst_class := cls; inst_short_name := None;
     inst_data_range := None; inst_kwargs := ∅ |}.

(** [self.short_name]: the instance attribute when set, the class attribute
    otherwise. *)
Definition attr_short_name (self : instance) : option string :=
  match inst_short_name self with
  | Some s => Some s
  | None => class_short_name (inst_class self)
  end.

Definition set_short_name (s : string) (self : instance) : instance :=
  {| inst_class := inst_class self; inst_short_name := Some s;
     inst_data_range := inst_data_range self; inst_kwargs := inst_kwargs self |}.

Definition set_data_range (d : option pynum) (self : instance) : instance :=
  {| inst_class := inst_class self; inst_short_name := inst_short_name self;
     inst_data_range := d; inst_kwargs := inst_kwargs self |}.

Definition set_kwargs (kw : kwargs) (self : instance) : instance :=
  {| inst_class := inst_class self; inst_short_name := inst_short_name self;
     inst_data_range := inst_data_range self; inst_kwargs := kw |}.

(** ** The registry *)

(** Objects are referred to by their address in the store. *)
Abbreviation loc := nat (only parsing).

(** The state of the process as far as this module goes: the objects
    constructed so far, [Measure.measure_dict] (short name to instance), and
    the warnings issued. *)
Record state : Type := {
  objects : list instance;
  measure_dict : gmap string loc;
  warnings : list string;
}.

Definition empty_state : state :=
  {| objects := []; measure_dict := ∅; warnings := [] |}.

(** [str(i)] for a non-negative [int]. *)
Definition str (i : nat) : string := pretty i.

(** The suspended frame of the generator [gen_unique_name]: its argument and
    the counter [i]. *)
Record generator : Type := { name_orig : string; counter : nat }.

Definition gen_unique_name (name_orig : string) : generator :=
  {| name_orig := name_orig; counter := 1 |}.

(** ['{}_{}'.format(name_orig, str(i))] *)
Definition suffixed (name_orig : string) (i : nat) : string :=
  name_orig +:+ "_" +:+ str i.

(** [next(unique_name)]: the value yielded and the frame after [i += 1]. *)
Definition next (g : generator) : string * generator :=
  (suffixed (name_orig g) (counter g),
   {| name_orig := name_orig g; counter := S (counter g) |}).

(** [while self.short_name in measure_dict: self.short_name = next(unique_name)],
    returning the final [self.short_name]. *)
Fixpoint rename_loop (fuel : nat) (d : gmap string loc) (unique_name : generator)
    (short_name : string) : outcome string :=
  match fuel with
  | O => OutOfFuel
  | S fuel' =>
      if decide (short_name ∈ dom d)
      then let '(s, g) := next unique_name in rename_loop fuel' d g s
      else Ok short_name
  end.

Definition rename_warning (old_short_name new_short_name : string) : string :=
  "Measure `short_name` '" +:+ old_short_name +:+
  "' already exists, changed to '" +:+ new_short_name +:+ "'".

Definition warn (msg : string) (σ : state) : state :=
  {| objects := objects σ; measure_dict := measure_dict σ;
     warnings := warnings σ ++ [msg] |}.

(** [measure_dict[short_name] = self] *)
Definition register (short_name : string) (self : loc) (σ : state) : state :=
  {| objects := objects σ; measure_dict := <[short_name := self]> (measure_dict σ);
     warnings := warnings σ |}.

(** Lines 71-74 of [Measure.__init__]: the instance after the assignments and
    the value [self.short_name] then has. *)
Definition init_short_name (short_name : option string) (obj : instance)
    : instance * string :=
  match short_name with
  | Some s => (set_short_name s obj, s)
  | None =>
      match attr_short_name obj with
      | None => let n := class_name (inst_class obj) in (set_short_name n obj, n)
      | Some s => (obj, s)
      end
  end.

(** [Measure.__init__(self, short_name)].  The object under construction is
    passed by value together with the address [self] it is stored at. *)
Definition Measure_init (fuel : nat) (short_name : option string)
    (self : loc) (obj : instance) (σ : state) : outcome (instance * state) :=
  let '(obj, name) := init_short_name short_name obj in
  if decide (name ∈ dom (measure_dict σ)) then
    let old_short_name := name in
    new ← rename_loop fuel (measure_dict σ) (gen_unique_name name) name;
    Ok (set_short_name new obj,
        register new self (warn (rename_warning old_short_name new) σ))
  else Ok (obj, register name self σ).

(** [Measure.get_by_short_name(short_name)]: [measure_dict.get(short_name)]. *)
Definition get_by_short_name (σ : state) (short_name : string) : option loc :=
  measure_dict σ !! short_name.

(** ** The measures *)

(** [np.max(gt) - np.min(gt)] *)
Definition value_range (gt : ndarray) : outcome npfloat :=
  mx ← Np.max gt; mn ← Np.min gt; Ok (Np.sub mx mn).

(** [L2Measure.apply] *)
Definition L2Measure_apply (self : instance) (reconstruction ground_truth : ndarray)
    : outcome npfloat :=
  d ← Np.sub_arrays reconstruction ground_truth;
  Ok (Np.linalg_norm d).

(** [MSEMeasure.apply] *)
Definition MSEMeasure_apply (self : instance) (reconstruction ground_truth : ndarray)
    : outcome npfloat :=
  d ← Np.sub_arrays reconstruction ground_truth;
  Ok (Np.mean (Np.square d)).

(** [self.data_range or (np.max(gt) - np.min(gt))] in [PSNRMeasure.apply]:
    the right operand is evaluated when the left one is falsy, that is [None]
    or zero.  The result is given as [np.log10], the one function applied to
    it, takes it. *)
Definition PSNR_data_range (self : instance) (gt : ndarray) : outcome npfloat :=
  match inst_data_range self with
  | Some v => if truthy v then log10_argument v else value_range gt
  | None => value_range gt
  end.

(** [20*np.log10(data_range) - 10*np.log10(mse)] *)
Definition psnr_value (data_range mse : npfloat) : npfloat :=
  Np.sub (Np.mul (Fin 20) (Np.log10 data_range)) (Np.mul (Fin 10) (Np.log10 mse)).

(** [PSNRMeasure.apply] *)
Definition PSNRMeasure_apply (self : instance) (reconstruction ground_truth : ndarray)
    : outcome npfloat :=
  let gt := ground_truth in
  d ← Np.sub_arrays reconstruction gt;
  let mse := Np.mean (Np.square d) in
  if Np.eqb mse (Fin 0) then Ok PInf
  else
    data_range ← PSNR_data_range self gt;
    Ok (psnr_value data_range mse).

(** The data range [SSIMMeasure.apply] hands on: the configured one unless it
    is [None]. *)
Definition SSIM_data_range (self : instance) (gt : ndarray) : outcome pynum :=
  match inst_data_range self with
  | Some v => Ok v
  | None => x ← value_range gt; Ok (PyFloat x)
  end.

Section Measures.

(** How [str.format] prints a float (the shortest decimal that reads back as
    the same binary64; not reproduced here). *)
Variable repr_float : npfloat → string.

(** [skimage.metrics.structural_similarity(im1, im2, data_range=..., **kwargs)],
    a routine of another package. *)
Variable structural_similarity : ndarray → ndarray → pynum → kwargs → outcome npfloat.

(** [SSIMMeasure.apply] *)
Definition SSIMMeasure_apply (self : instance) (reconstruction ground_truth : ndarray)
    : outcome npfloat :=
  let gt := ground_truth in
  data_range ← SSIM_data_range self gt;
  structural_similarity reconstruction gt data_range (inst_kwargs self).

(** [self.apply(reconstruction, ground_truth)], dispatched on the class of
    [self]; [Measure.__call__] is the same call. *)
Definition Measure_apply (self : instance) (reconstruction ground_truth : ndarray)
    : outcome npfloat :=
  match class_apply (inst_class self) with
  | AbstractApply => Raise TypeError
  | L2Apply => L2Measure_apply self reconstruction ground_truth
  | MSEApply => MSEMeasure_apply self reconstruction ground_truth
  | PSNRApply => PSNRMeasure_apply self reconstruction ground_truth
  | SSIMApply => SSIMMeasure_apply self reconstruction ground_truth
  | UserApply f => f reconstruction ground_truth
  end.

Definition Measure_call (self : instance) (reconstruction ground_truth : ndarray)
    : outcome npfloat :=
  Measure_apply self reconstruction ground_truth.

(** *** Construction *)

(** ['{}'.format(v)] *)
Definition format_num (v : pynum) : string :=
  match v with
  | PyInt z => pretty z
  | PyFloat x => repr_float x
  end.

Definition format_str_or_None (v : option string) : string :=
  match v with
  | Some s => s
  | None => "None"
  end.

(** ['{}_data_range{}'.format(self.__class__.short_name, self.data_range)] *)
Definition data_range_short_name (cls : pyclass) (data_range : pynum) : string :=
  format_str_or_None (class_short_name cls) +:+ "_data_range" +:+ format_num data_range.

(** [PSNRMeasure.__init__(self, data_range, short_name)] *)
Definition PSNRMeasure_init (fuel : nat) (data_range : option pynum)
    (short_name : option string) (self : loc) (obj : instance) (σ : state)
    : outcome (instance * state) :=
  let obj := set_data_range data_range obj in
  let short_name :=
    match inst_data_range obj, short_name with
    | Some d, None => Some (data_range_short_name (inst_class obj) d)
    | _, _ => short_name
    end in
  Measure_init fuel short_name self obj σ.

(** [SSIMMeasure.__init__(self, short_name, **kwargs)] *)
Definition SSIMMeasure_init (fuel : nat) (short_name : option string) (kw : kwargs)
    (self : loc) (obj : instance) (σ : state) : outcome (instance * state) :=
  let obj := set_kwargs kw obj in
  let obj := set_kwargs (delete "data_range" (inst_kwargs obj))
               (set_data_range (inst_kwargs obj !! "data_range") obj) in
  let short_name :=
    match inst_data_range obj, short_name with
    | Some d, None => Some (data_range_short_name (inst_class obj) d)
    | _, _ => short_name
    end in
  Measure_init fuel short_name self obj σ.

(** The arguments of a constructor call, all passed by keyword. *)
Record call_args : Type := {
  arg_short_name : option string;
  arg_kwargs : kwargs;
}.

Definition no_args : call_args := {| arg_short_name := None; arg_kwargs := ∅ |}.

Definition with_short_name (s : string) : call_args :=
  {| arg_short_name := Some s; arg_kwargs := ∅ |}.

(** The object is stored at its address once [__init__] has returned. *)
Definition store (obj : instance) (σ : state) : state :=
  {| objects := objects σ ++ [obj]; measure_dict := measure_dict σ;
     warnings := warnings σ |}.

(** A constructor call [cls(...)]: a class whose [apply] is still abstract cannot be
    instantiated; otherwise a new object is made and the [__init__] of the
    class runs on it.  A keyword the [__init__] does not take is a
    [TypeError]. *)
Definition construct (fuel : nat) (cls : pyclass) (args : call_args) (σ : state)
    : outcome (loc * state) :=
  match class_apply cls with
  | AbstractApply => Raise TypeError
  | _ =>
      let self := length (objects σ) in
      let obj := new_instance cls in
      let kw := arg_kwargs args in
      '(obj, σ) ←
        match class_init cls with
        | MeasureInit =>
            if decide (dom kw = ∅)
            then Measure_init fuel (arg_short_name args) self obj σ
            else Raise TypeError
        | PSNRInit =>
            if decide (dom kw ⊆ {["data_range"]})
            then PSNRMeasure_init fuel (kw !! "data_range") (arg_short_name args) self obj σ
            else Raise TypeError
        | SSIMInit => SSIMMeasure_init fuel (arg_short_name args) kw self obj σ
        end;
      Ok (self, store obj σ)
  end.

(** The module's own instances: [L2 = L2Measure()], [MSE = MSEMeasure()],
    [PSNR = PSNRMeasure()], [SSIM = SSIMMeasure()], made in this order when the
    module is imported. *)
Definition module_state : outcome state :=
  '(_, σ) ← construct 0 L2Measure no_args empty_state;
  '(_, σ) ← construct 0 MSEMeasure no_args σ;
  '(_, σ) ← construct 0 PSNRMeasure no_args σ;
  '(_, σ) ← construct 0 SSIMMeasure no_args σ;
  Ok σ.

(** The states the process can be in: the registry starts empty and changes
    by constructor calls only. *)
Inductive reachable : state → Prop :=
  | reachable_empty : reachable empty_state
  | reachable_construct (σ σ' : state) (fuel : nat) (cls : pyclass)
      (args : call_args) (m : loc) :
      reachable σ → construct fuel cls args σ = Ok (m, σ') → reachable σ'.

End Measures.

(** *** The adapter *)

Section Adapter.

(** skimage's routine, as in [SSIMMeasure.apply]: called so that it returns
    the index alone, a float. *)
Variable structural_similarity : ndarray → ndarray → pynum → kwargs → outcome npfloat.

(** The spaces of odl, compared by [==]. *)
Variable space : Type.
Context `{EqDecision space}.

(** What a caller hands over as an image: a plain array (a list, an
    [ndarray]) or an element of an odl space, which carries that space as its
    attribute [space]. *)
Inductive array_like : Type :=
  | Plain (a : ndarray)
  | Element (sp : space) (a : ndarray).

(** [sp.element(x)] of odl: the entries of the element of [sp] made from [x];
    [TypeError] or [ValueError] when [x] cannot be cast. *)
Variable element : space → array_like → outcome ndarray.

(** [np.asarray(x)] *)
Definition asarray (x : array_like) : ndarray :=
  match x with
  | Plain a => a
  | Element _ a => a
  end.

(** [x.space]: only an element of a space has the attribute. *)
Definition attr_space (x : array_like) : outcome space :=
  match x with
  | Plain _ => Raise AttributeError
  | Element sp _ => Ok sp
  end.

(** [sp.field], the scalars of a space. *)
Inductive scalars : Type :=
  | field_of (sp : space).

(** [self.apply(reconstruction, ground_truth)] on what a caller hands over:
    every [apply] works on [np.asarray] of its arguments (the routine behind
    [SSIMMeasure.apply] converts the reconstruction itself). *)
Definition Measure_apply_to (self : instance) (reconstruction ground_truth : array_like)
    : outcome npfloat :=
  Measure_apply structural_similarity self (asarray reconstruction) (asarray ground_truth).

(** [Measure._OperatorForFixedGroundTruth]: [domain] and [range], the
    attributes odl's [Operator.__init__] sets from its two arguments, and the
    two attributes set by the class itself.  Measures are not modified after
    their construction, so the reference [self.measure] is represented by the
    instance. *)
Record OperatorForFixedGroundTruth : Type := {
  domain : space;
  range : scalars;
  measure : instance;
  ground_truth : array_like;
}.

(** [_OperatorForFixedGroundTruth.__init__(self, measure, ground_truth)] *)
Definition OperatorForFixedGroundTruth_init (measure : instance)
    (ground_truth : array_like) : outcome OperatorForFixedGroundTruth :=
  domain ← attr_space ground_truth;
  sp ← attr_space ground_truth;
  Ok {| domain := domain; range := field_of sp;
        measure := measure; ground_truth := ground_truth |}.

(** [_OperatorForFixedGroundTruth._call(self, x)] *)
Definition OperatorForFixedGroundTruth_call (self : OperatorForFixedGroundTruth)
    (x : array_like) : outcome npfloat :=
  Measure_apply_to (measure self) x (ground_truth self).

(** [Measure.as_operator_for_fixed_ground_truth(self, ground_truth)] *)
Definition as_operator_for_fixed_ground_truth (self : instance)
    (ground_truth : array_like) : outcome OperatorForFixedGroundTruth :=
  OperatorForFixedGroundTruth_init self ground_truth.

(** [x in sp] for a space of odl: [x] has a [space] and it equals [sp]. *)
Definition contains (sp : space) (x : array_like) : bool :=
  match x with
  | Plain _ => false
  | Element sp' _ => bool_decide (sp' = sp)
  end.

(** The operator applied to [x], that is odl's [Operator.__call__(x)] without
    [out]: an [x] that is not in the domain is cast to an element of it, or
    refused with [OpDomainError] where the cast raises [TypeError] or
    [ValueError]; then [_call] is evaluated.  What [_call] returns here is a
    float, which the range, a field of numbers, contains, so that it is
    returned as it is. *)
Definition Operator_call (self : OperatorForFixedGroundTruth) (x : array_like)
    : outcome npfloat :=
  x ← (if contains (domain self) x then Ok x
       else match element (domain self) x with
            | Ok a => Ok (Element (domain self) a)
            | Raise TypeError | Raise ValueError => Raise OpDomainError
            | Raise e => Raise e
            | OutOfFuel => OutOfFuel
            end);
  OperatorForFixedGroundTruth_call self x.

End Adapter.

Arguments Plain {space} a.
Arguments Element {space} sp a.
Arguments asarray {space} x.
Arguments attr_space {space} x.
Arguments field_of {space} sp.
Arguments Measure_apply_to structural_similarity {space} self reconstruction ground_truth.
Arguments domain {space} o.
Arguments range {space} o.
Arguments measure {space} o.
Arguments ground_truth {space} o.
Arguments OperatorForFixedGroundTruth_init {space} measure ground_truth.
Arguments OperatorForFixedGroundTruth_call structural_similarity {space} self x.
Arguments as_operator_for_fixed_ground_truth {space} self ground_truth.
Arguments contains {space _} sp x.
Arguments Operator_call structural_similarity {space _} element self x.

(** ** Vocabulary for the registry properties *)

(** [k] is the first integer suffix, counting from 1, whose name is not a key
    of [d]. *)
Definition first_unused_suffix (d : gmap string loc) (name : string) (k : nat) : Prop :=
  1 ≤ k ∧ (suffixed name k ∉ dom d) ∧ (∀ j, 1 ≤ j < k → suffixed name j ∈ dom d).

(** The constructor call [cls(...)] with arguments [args] is well formed: the
    class is concrete and its [__init__] takes the keywords given. *)
Definition accepts (cls : pyclass) (args : call_args) : Prop :=
  class_apply cls ≠ AbstractApply ∧
  match class_init cls with
  | MeasureInit => dom (arg_kwargs args) = ∅
  | PSNRInit => dom (arg_kwargs args) ⊆ {["data_range"]}
  | SSIMInit => True
  end.

(** The object at address [m] has [short_name] equal to [name]. *)
Definition has_short_name (σ : state) (m : loc) (name : string) : Prop :=
  ∃ obj, objects σ !! m = Some obj ∧ attr_short_name obj = Some name.

(** The registry and the objects agree: every entry leads to an object that
    carries the key as its short name, and every object is registered under
    its short name. *)
Definition registry_ok (σ : state) : Prop :=
  (∀ name m, measure_dict σ !! name = Some m → has_short_name σ m name) ∧
  (∀ m obj, objects σ !! m = Some obj →
     ∃ name, attr_short_name obj = Some name ∧ measure_dict σ !! name = Some m).

(** No two objects have the same short name. *)
Definition unique_short_names (σ : state) : Prop :=
  ∀ m1 m2 name, has_short_name σ m1 name → has_short_name σ m2 name → m1 = m2.

(** A subclass that defines [apply] and declares no [short_name]. *)
Definition plain_subclass (name : string) (apply : ndarray → ndarray → outcome npfloat)
    : pyclass :=
  Subclass name None (Some apply) Measure.

(** ** The module's instances and the inputs of the scenarios *)

(** The objects bound to [L2], [MSE], [PSNR] and [SSIM] when the module has
    been imported (see [module_state_objects] below). *)
Definition L2 : instance := new_instance L2Measure.
Definition MSE : instance := new_instance MSEMeasure.
Definition PSNR : instance := new_instance PSNRMeasure.
Definition SSIM : instance := new_instance SSIMMeasure.

(** The state right after the import. *)
Definition imported : state :=
  {| objects := [L2; MSE; PSNR; SSIM];
     measure_dict := <["ssim" := 3]> (<["psnr" := 2]> (<["mse" := 1]> (<["l2" := 0]> ∅)));
     warnings := [] |}.

(** [PSNRMeasure(data_range=d)] once constructed, up to its short name. *)
Definition PSNR_with_data_range (d : pynum) : instance :=
  set_data_range (Some d) (new_instance PSNRMeasure).

Definition array_of (l : list R) : ndarray := map Fin l.

(** Scenario 2 of the specification: [r = [0,0,0,0]], [g = [0,0,0,4]]. *)
Definition scenario2_r : ndarray := array_of [0; 0; 0; 0]%R.
Definition scenario2_g : ndarray := array_of [0; 0; 0; 4]%R.

(** ** Vocabulary for further properties of the measures *)

(** The states that follow [σ]: those reached from it by constructor calls. *)
Inductive follows (repr_float : npfloat → string) (σ : state) : state → Prop :=
  | follows_refl : follows repr_float σ σ
  | follows_construct (σ1 σ2 : state) (fuel : nat) (cls : pyclass)
      (args : call_args) (m : loc) :
      follows repr_float σ σ1 →
      construct repr_float fuel cls args σ1 = Ok (m, σ2) →
      follows repr_float σ σ2.

(** What a well-formed constructor call hands to [Measure.__init__]: the
    [short_name] argument (the one given, or the one the [__init__] of a PSNR or
    SSIM measure derives from a data range) and the object as the [__init__]
    of the class has prepared it. *)
Definition short_name_argument (repr_float : npfloat → string) (cls : pyclass)
    (args : call_args) : option string :=
  match arg_short_name args, arg_kwargs args !! "data_range" with
  | None, Some d => Some (data_range_short_name repr_float cls d)
  | short_name, _ => short_name
  end.

Definition prepared_object (cls : pyclass) (args : call_args) : instance :=
  {| inst_class := cls; inst_short_name := None;
     inst_data_range := arg_kwargs args !! "data_range";
     inst_kwargs := match class_init cls with
                    | SSIMInit => delete "data_range" (arg_kwargs args)
                    | _ => ∅
                    end |}.

(** [PSNRMeasure(data_range=z)] and the like: a data range and nothing else. *)
Definition with_data_range (d : pynum) : call_args :=
  {| arg_short_name := None; arg_kwargs := {["data_range" := d]} |}.

(** The state after [L2Measure()] is called once more after the import. *)
Definition imported_and_l2 : state :=
  {| objects := objects imported ++ [set_short_name "l2_1" L2];
     measure_dict := <["l2_1" := 4]> (measure_dict imported);
     warnings := [rename_warning "l2" "l2_1"] |}.

(** ** dival.datasets.lidc_idri_dival: the LIDC-IDRI ground truth images

    A shallow embedding of [LIDCIDRIDivalDataset] in
    [lidc_idri_dival_dataset.py].  Reading files ([json.load], [dcmread]),
    the random number generator and the odl space are parameters; the
    arithmetic on the pixel arrays is embedded as it is written, with finite
    [float32] values idealised as reals like the [float64] ones above. *)

(** A two-dimensional array: its shape and its entries, which are read inside
    the shape only. *)
Record array2d (A : Type) : Type := {
  shape : nat * nat;
  entry : nat → nat → A;
}.
Arguments shape {A} a.
Arguments entry {A} a i j.

(** [a[75:-75, 75:-75]]: on an axis of length [n] the slice keeps the indices
    from 75 up to [n - 75], none if [n <= 150]. *)
Definition slice_75 {A : Type} (a : array2d A) : array2d A :=
  {| shape := (fst (shape a) - 150, snd (shape a) - 150);
     entry i j := entry a (i + 75) (j + 75) |}.

(** [a.T] *)
Definition transpose {A : Type} (a : array2d A) : array2d A :=
  {| shape := (snd (shape a), fst (shape a)); entry i j := entry a j i |}.

(** An operation applied to every entry, as [a.astype(...)], [a *= c],
    [a += c], [a -= c], [a /= c] and [np.clip(a, lo, hi, out=a)] do. *)
Definition map2d {A B : Type} (f : A → B) (a : array2d A) : array2d B :=
  {| shape := shape a; entry i j := f (entry a i j) |}.

(** [a += b] for an array [b] of the shape of [a]. *)
Definition add2d (a : array2d npfloat) (b : nat → nat → R) : array2d npfloat :=
  {| shape := shape a; entry i j := Np.add (entry a i j) (Fin (b i j)) |}.

(** [np.clip(x, lo, hi)], that is [minimum(maximum(x, lo), hi)]. *)
Definition np_clip (x lo hi : npfloat) : npfloat := Np.min2 (Np.max2 x lo) hi.

(** What [dcmread] returns, as far as it is used: the pixel array (integers)
    and the rescale slope and intercept of the DICOM header. *)
Record dicom : Type := {
  pixel_array : array2d Z;
  RescaleSlope : R;
  RescaleIntercept : R;
}.

Definition MIN_VAL : R := (-1024)%R.
Definition MAX_VAL : R := 3071%R.

(** Lines 88-103 of [generator]: the array handed to [self.space.element] for
    one DICOM file, given the noise drawn for it. *)
Definition image_array (normalize : bool) (dataset : dicom) (noise : nat → nat → R)
    : array2d npfloat :=
  let array := transpose (map2d (λ z, Fin (IZR z)) (slice_75 (pixel_array dataset))) in
  let array := map2d (λ x, Np.mul x (Fin (RescaleSlope dataset))) array in
  let array := map2d (λ x, Np.add x (Fin (RescaleIntercept dataset))) array in
  let array := add2d array noise in
  if normalize then
    let array := map2d (λ x, Np.sub x (Fin MIN_VAL)) array in
    let array := map2d (λ x, Np.div x (Fin MAX_VAL)) array in
    map2d (λ x, np_clip x (Fin 0) (Fin 1)) array
  else
    map2d (λ x, np_clip x (Fin (-1024)) (Fin 3072)) array.

(** The seed of the random state of a part. *)
Definition seed_of_part (part : string) : Z :=
  if decide (part = "validation") then 2%Z
  else if decide (part = "test") then 1%Z
  else 42%Z.

(** How a run of the generator ends when it does not run to its end. *)
Inductive dataset_exn : Type :=
  | KeyError (key : string)
  | DcmreadError (path : string)
  | ElementError.

Section LIDCIDRI.

(** [os.path.join(DATA_PATH, dcm_file)] *)
Variable data_path_join : string → string.
(** [dcmread(path)]; [None] when it raises. *)
Variable dcmread : string → option dicom.
(** [np.random.RandomState(seed)] and its [uniform(0., 1., size=shape)], which
    returns the numbers drawn and leaves the state advanced. *)
Variable random_state : Type.
Variable RandomState : Z → random_state.
Variable uniform : random_state → nat * nat → (nat → nat → R) * random_state.
(** The odl space and [space.element(array)]; [None] when it raises. *)
Variable space : Type.
Variable uniform_discr : list R → list R → nat * nat → space.
Variable image : Type.
Variable element : space → array2d npfloat → option image.

(** The attributes [LIDCIDRIDivalDataset.__init__] sets; [dataset_space] is
    the space it hands to the [__init__] of its base class, which the
    generator reads back as [self.space]. *)
Record LIDCIDRIDivalDataset : Type := {
  normalize : bool;
  dataset_shape : nat * nat;
  dcm_files_dict : gmap string (list string);
  train_len : nat;
  validation_len : nat;
  test_len : nat;
  dataset_space : space;
}.

(** [LIDCIDRIDivalDataset.__init__(self, normalize, min_pt, max_pt)], given
    what [json.load] reads from the file list; a missing part is a
    [KeyError]. *)
Definition LIDCIDRIDivalDataset_init (normalize : bool) (min_pt max_pt : option (list R))
    (file_list : gmap string (list string)) : dataset_exn + LIDCIDRIDivalDataset :=
  let shape := (362, 362) in
  let min_pt :=
    match min_pt with
    | Some p => p
    | None => [(- INR (fst shape) / 2)%R; (- INR (snd shape) / 2)%R]
    end in
  let max_pt :=
    match max_pt with
    | Some p => p
    | None => [(INR (fst shape) / 2)%R; (INR (snd shape) / 2)%R]
    end in
  let space := uniform_discr min_pt max_pt shape in
  match file_list !! "train" with
  | None => inl (KeyError "train")
  | Some train =>
      match file_list !! "validation" with
      | None => inl (KeyError "validation")
      | Some validation =>
          match file_list !! "test" with
          | None => inl (KeyError "test")
          | Some test =>
              inr {| normalize := normalize; dataset_shape := shape;
                     dcm_files_dict := file_list;
                     train_len := length train;
                     validation_len := length validation;
                     test_len := length test;
                     dataset_space := space |}
          end
      end
  end.

(** The loop of [generator] over the files: the images yielded, in order, and
    the exception that ended the run, if any. *)
Fixpoint generator_loop (self : LIDCIDRIDivalDataset) (r : random_state)
    (dcm_files : list string) : list image * option dataset_exn :=
  match dcm_files with
  | [] => ([], None)
  | dcm_file :: rest =>
      match dcmread (data_path_join dcm_file) with
      | None => ([], Some (DcmreadError (data_path_join dcm_file)))
      | Some dataset =>
          let cropped := transpose (map2d (λ z, Fin (IZR z)) (slice_75 (pixel_array dataset))) in
          let '(noise, r) := uniform r (shape cropped) in
          let array := image_array (normalize self) dataset noise in
          match element (dataset_space self) array with
          | None => ([], Some ElementError)
          | Some image =>
              let '(images, e) := generator_loop self r rest in
              (image :: images, e)
          end
      end
  end.

(** [LIDCIDRIDivalDataset.generator(self, part)] run until it stops. *)
Definition LIDCIDRIDivalDataset_generator (self : LIDCIDRIDivalDataset) (part : string)
    : list image * option dataset_exn :=
  let seed := seed_of_part part in
  let r := RandomState seed in
  match dcm_files_dict self !! part with
  | None => ([], Some (KeyError part))
  | Some dcm_files => generator_loop self r dcm_files
  end.

End LIDCIDRI.

(** The rescaled value (in Hounsfield units, by the DICOM header) of the
    pixel of the file that ends up at position [(i, j)] of the image. *)
Definition hounsfield (dataset : dicom) (i j : nat) : R :=
  (IZR (entry (pixel_array dataset) (j + 75) (i + 75)) * RescaleSlope dataset
   + RescaleIntercept dataset)%R.

(** A 512 x 512 slice with the same stored value everywhere, slope 1 and
    intercept -1024. *)
Definition flat_slice (z : Z) : dicom :=
  {| pixel_array := {| shape := (512, 512); entry _ _ := z |};
     RescaleSlope := 1%R; RescaleIntercept := (-1024)%R |}.

(** A dataset with two files in its training part, over a space and readers
    that are stand-ins. *)
Definition example_dataset : LIDCIDRIDivalDataset unit :=
  {| normalize := true; dataset_shape := (362, 362);
     dcm_files_dict := {["train" := ["a.dcm"; "b.dcm"]]};
     train_len := 2; validation_len := 0; test_len := 0;
     dataset_space := tt |}.

(** ** The two distances in machine arithmetic

    [L2Measure.apply] and [MSEMeasure.apply] once more, for two arrays of the
    same length, with the binary64 numbers and their operations in place of
    the reals.  The entries are added from left to right. *)

Module Binary64.

(** The number of entries as a float, exact below [2^53]. *)
Fixpoint of_nat (n : nat) : float :=
  match n with
  | O => 0%float
  | S n => (of_nat n + 1)%float
  end.

(** [sum(d**2)] *)
Definition sum_squares (d : list float) : float :=
  foldl (λ acc x, acc + x * x)%float 0%float d.

Definition L2Measure_apply (reconstruction ground_truth : list float) : float :=
  PrimFloat.sqrt (sum_squares (zip_with PrimFloat.sub reconstruction ground_truth)).

Definition MSEMeasure_apply (reconstruction ground_truth : list float) : float :=
  (sum_squares (zip_with PrimFloat.sub reconstruction ground_truth)
   / of_nat (length reconstruction))%float.

End Binary64.

(** * Properties *)

(** ** Arithmetic of numpy floats *)

Section NpFacts.

Open Scope R_scope.

Lemma Rsign_pos x : 0 < x → Np.Rsign x = Gt.
Proof.
  intros Hx. unfold Np.Rsign.
  destruct (total_order_T x 0) as [[Hlt | Heq] | Hgt]; [lra | lra | reflexivity].
Qed.

Lemma Rsign_neg x : x < 0 → Np.Rsign x = Lt.
Proof.
  intros Hx. unfold Np.Rsign.
  destruct (total_order_T x 0) as [[Hlt | Heq] | Hgt]; [reflexivity | lra | lra].
Qed.

Lemma Rsign_zero x : x = 0 → Np.Rsign x = Eq.
Proof.
  intros Hx. unfold Np.Rsign.
  destruct (total_order_T x 0) as [[Hlt | Heq] | Hgt]; [lra | reflexivity | lra].
Qed.

Lemma Rsign_cases x :
  (x < 0 ∧ Np.Rsign x = Lt) ∨ (x = 0 ∧ Np.Rsign x = Eq) ∨ (0 < x ∧ Np.Rsign x = Gt).
Proof.
  destruct (total_order_T x 0) as [[Hlt | Heq] | Hgt].
  - left. split; [assumption | by apply Rsign_neg].
  - right; left. split; [assumption | by apply Rsign_zero].
  - right; right. split; [lra | apply Rsign_pos; lra].
Qed.

Lemma eqb_Fin_true x y : x = y → Np.eqb (Fin x) (Fin y) = true.
Proof. intros ->. simpl. destruct (Req_dec_T y y); [reflexivity | contradiction]. Qed.

Lemma eqb_Fin_false x y : x ≠ y → Np.eqb (Fin x) (Fin y) = false.
Proof. intros Hne. simpl. destruct (Req_dec_T x y); [contradiction | reflexivity]. Qed.

Lemma eqb_zero_true a : Np.eqb a (Fin 0) = true ↔ a = Fin 0.
Proof.
  destruct a as [x | | |]; simpl; try (split; discriminate).
  destruct (Req_dec_T x 0) as [Heq | Hne].
  - split; [intros _; by rewrite Heq | reflexivity].
  - split; [discriminate | intros [= Heq]; contradiction].
Qed.

Lemma INR_length_pos {A} (l : list A) : l ≠ [] → 0 < INR (length l).
Proof.
  destruct l as [| a l]; [done | intros _].
  change 0 with (INR 0). apply lt_INR. simpl. lia.
Qed.

(** Subtracting a finite entry from itself gives zero; an infinite entry or
    [nan] gives [nan]. *)
Lemma sub_diag a : Np.sub a a = match a with Fin _ => Fin 0 | _ => NaN end.
Proof. destruct a as [x | | |]; simpl; try reflexivity. f_equal. lra. Qed.

Lemma add_NaN_r a : Np.add a NaN = NaN.
Proof. by destruct a. Qed.

Lemma sum_zeros (a : ndarray) : Forall (λ x, x = Fin 0) a → Np.sum a = Fin 0.
Proof.
  induction 1 as [| x l -> _ IH]; [reflexivity |].
  unfold Np.sum in *. simpl. rewrite IH. simpl. f_equal. lra.
Qed.

Lemma sum_with_NaN (a : ndarray) : NaN ∈ a → Np.sum a = NaN.
Proof.
  induction a as [| x l IH]; [by intros ?%elem_of_nil |].
  intros [<- | Hin]%elem_of_cons; [reflexivity |].
  unfold Np.sum in *. simpl. rewrite IH by done. apply add_NaN_r.
Qed.

Lemma sub_arrays_same_length (a b : ndarray) :
  length a = length b → Np.sub_arrays a b = Ok (zip_with Np.sub a b).
Proof. intros Hlen. unfold Np.sub_arrays. by rewrite decide_True. Qed.

Lemma mul_self_nonneg a : Np.not_negative (Np.mul a a).
Proof. destruct a as [x | | |]; simpl; try done. nra. Qed.

Lemma add_nonneg a b : Np.not_negative a → Np.not_negative b → Np.not_negative (Np.add a b).
Proof. destruct a, b; simpl; try done. lra. Qed.

Lemma sum_square_nonneg (a : ndarray) : Np.not_negative (Np.sum (Np.square a)).
Proof.
  induction a as [| x l IH]; simpl; [lra |].
  apply add_nonneg; [apply mul_self_nonneg | exact IH].
Qed.

Lemma mean_square_nonneg (a : ndarray) : Np.not_negative (Np.mean (Np.square a)).
Proof.
  unfold Np.mean. pose proof (sum_square_nonneg a) as Hs.
  assert (Hn : 0 <= INR (length (Np.square a))) by apply pos_INR.
  destruct (Np.sum (Np.square a)) as [s | | |]; simpl in *; try done.
  - destruct (Rsign_cases (INR (length (Np.square a)))) as [[? ->] | [[? ->] | [? ->]]];
      simpl; try lra.
    + destruct (Rsign_cases s) as [[? ->] | [[? ->] | [? ->]]]; simpl; [lra | done | done].
    + apply Rmult_le_pos; [lra |]. left. by apply Rinv_0_lt_compat.
  - destruct (Rsign_cases (INR (length (Np.square a)))) as [[? ->] | [[? ->] | [? ->]]];
      simpl; [lra | done | done].
Qed.


End NpFacts.

(** ** L2, MSE and PSNR *)

Section MeasureFacts.

Open Scope R_scope.

Lemma zip_sub_diag_finite (r : ndarray) :
  Forall Np.is_finite r → Forall (λ x, x = Fin 0) (zip_with Np.sub r r).
Proof.
  induction 1 as [| x l Hx _ IH]; simpl; constructor; [| exact IH].
  rewrite sub_diag. by destruct x.
Qed.

Lemma square_zeros (a : ndarray) :
  Forall (λ x, x = Fin 0) a → Forall (λ x, x = Fin 0) (Np.square a).
Proof.
  induction 1 as [| x l -> _ IH]; simpl; constructor; [| exact IH].
  simpl. f_equal. lra.
Qed.

Lemma zip_sub_diag_not_finite (r : ndarray) :
  ¬ Forall Np.is_finite r → NaN ∈ Np.square (zip_with Np.sub r r).
Proof.
  induction r as [| x l IH]; intros Hnot; [destruct Hnot; constructor |].
  simpl. destruct x as [x | | |]; try (by left).
  right. apply IH. intros Hl. apply Hnot. by constructor.
Qed.

(** The mean squared error of an array against itself: zero when the array
    is non-empty and all its entries are finite, [nan] otherwise. *)
Lemma mse_diag_zero (r : ndarray) :
  r ≠ [] → Forall Np.is_finite r →
  Np.mean (Np.square (zip_with Np.sub r r)) = Fin 0.
Proof.
  intros Hne Hfin. unfold Np.mean.
  rewrite (sum_zeros _ (square_zeros _ (zip_sub_diag_finite r Hfin))).
  assert (Hlen : 0 < INR (length (Np.square (zip_with Np.sub r r)))).
  { apply INR_length_pos. destruct r; [done | discriminate]. }
  simpl. rewrite (Rsign_pos _ Hlen). f_equal. unfold Rdiv. lra.
Qed.

Lemma mse_diag_nan (r : ndarray) :
  r = [] ∨ ¬ Forall Np.is_finite r →
  Np.mean (Np.square (zip_with Np.sub r r)) = NaN.
Proof.
  intros [-> | Hnot]; unfold Np.mean.
  - simpl. by rewrite (Rsign_zero 0).
  - by rewrite (sum_with_NaN _ (zip_sub_diag_not_finite r Hnot)).
Qed.

Lemma psnr_value_nan_r d : psnr_value d NaN = NaN.
Proof. unfold psnr_value, Np.sub. simpl. apply add_NaN_r. Qed.


End MeasureFacts.

(** ** C4: the PSNR of a reconstruction against itself *)




(** ** C6: L2 against MSE *)

(** Scenario 1: [r = [1,1,1]] against [g = [0,0,0]]. *)
Lemma scenario1_l2 (self : instance) :
  L2Measure_apply self (array_of [1; 1; 1]%R) (array_of [0; 0; 0]%R)
    = Ok (Fin (sqrt 3)).
Proof.
  unfold L2Measure_apply. simpl. unfold Np.linalg_norm. simpl.
  assert (Hs : ((1 + - 0) * (1 + - 0) + ((1 + - 0) * (1 + - 0) +
                ((1 + - 0) * (1 + - 0) + 0)) = 3)%R) by lra.
  rewrite Hs. rewrite Rsign_pos by lra. reflexivity.
Qed.



(** In machine arithmetic it fails for arrays with entries as well: for
    [r = [15,0,0,0,0,0,0]] against zeros the L2 distance is 15, while the mean
    225/7 times 7 is the float above 225, whose square root is the float
    above 15. *)
Lemma l2_mse_rounding :
  Binary64.L2Measure_apply [15; 0; 0; 0; 0; 0; 0]%float [0; 0; 0; 0; 0; 0; 0]%float
    = 15%float ∧
  PrimFloat.sqrt
    (Binary64.MSEMeasure_apply [15; 0; 0; 0; 0; 0; 0]%float [0; 0; 0; 0; 0; 0; 0]%float
     * 7)%float
    = 0x1.e000000000001p+3%float ∧
  PrimFloat.ltb 15%float 0x1.e000000000001p+3%float = true.
Proof. by vm_compute. Qed.



(** ** C5, C7, C10: the value of the PSNR *)

Section PSNRFacts.

Open Scope R_scope.

(** Outside the zero branch [PSNRMeasure.apply] is the formula on the data
    range the [or] expression yields. *)
Lemma PSNR_apply_nonzero (self mse_measure : instance) (r g : ndarray) (mse : npfloat) :
  MSEMeasure_apply mse_measure r g = Ok mse → Np.eqb mse (Fin 0) = false →
  PSNRMeasure_apply self r g =
    (data_range ← PSNR_data_range self g; Ok (psnr_value data_range mse)).
Proof.
  unfold MSEMeasure_apply, PSNRMeasure_apply.
  destruct (Np.sub_arrays r g) as [d | e |]; simpl; [| done | done].
  intros [= ->] ->. reflexivity.
Qed.

(** With a configured data range that is truthy, the formula is evaluated on
    it. *)
Lemma PSNR_apply_configured (self mse_measure : instance) (d : pynum)
    (r g : ndarray) (mse : npfloat) :
  inst_data_range self = Some d → truthy d = true → is_numeric d = true →
  MSEMeasure_apply mse_measure r g = Ok mse → Np.eqb mse (Fin 0) = false →
  PSNRMeasure_apply self r g = Ok (psnr_value (to_float d) mse).
Proof.
  intros Hd Ht Hnum Hmse Hnz. rewrite (PSNR_apply_nonzero _ _ _ _ _ Hmse Hnz).
  unfold PSNR_data_range, log10_argument. by rewrite Hd, Ht, Hnum.
Qed.

(** A configured data range that is falsy is passed over. *)
Lemma PSNR_data_range_falsy (self : instance) (d : pynum) (g : ndarray) :
  inst_data_range self = Some d → truthy d = false →
  PSNR_data_range self g = value_range g.
Proof. intros Hd Ht. unfold PSNR_data_range. by rewrite Hd, Ht. Qed.

Lemma mse_0_1 (self : instance) :
  MSEMeasure_apply self (array_of [0]) (array_of [1]) = Ok (Fin 1).
Proof.
  unfold MSEMeasure_apply. simpl. unfold Np.mean. simpl.
  rewrite Rsign_pos by lra. do 2 f_equal. lra.
Qed.

Lemma ln_10_pos : 0 < ln 10.
Proof. rewrite <- ln_1. apply ln_increasing; lra. Qed.

Lemma log10_le a b : 0 < a → a <= b → ln a / ln 10 <= ln b / ln 10.
Proof.
  intros Ha Hab. apply Rmult_le_compat_r.
  - left. apply Rinv_0_lt_compat, ln_10_pos.
  - destruct Hab as [Hlt | ->]; [left; by apply ln_increasing | right; reflexivity].
Qed.

(** For a finite data range that is not negative, the formula does not
    increase with the error. *)
Lemma psnr_value_antitone (d : R) (a b : npfloat) :
  0 <= d → Np.not_negative a → Np.not_negative b →
  Np.eqb a (Fin 0) = false → Np.eqb b (Fin 0) = false →
  Np.le a b → Np.le (psnr_value (Fin d) b) (psnr_value (Fin d) a).
Proof.
  intros Hd Ha Hb Hza Hzb Hab. unfold psnr_value.
  destruct a as [x | | |], b as [y | | |]; simpl in Ha, Hb, Hab; try done.
  - assert (Hx : 0 < x).
    { destruct Ha as [Hlt | <-]; [done |]. by rewrite eqb_Fin_true in Hza. }
    assert (Hy : 0 < y) by lra.
    pose proof (log10_le x y Hx Hab) as Hlog.
    simpl. rewrite (Rsign_pos x), (Rsign_pos y) by done.
    destruct (Rsign_cases d) as [[? ->] | [[? ->] | [? ->]]]; simpl; [lra | | lra].
    rewrite (Rsign_pos 20) by lra. done.
  - assert (Hx : 0 < x).
    { destruct Ha as [Hlt | <-]; [done |]. by rewrite eqb_Fin_true in Hza. }
    simpl. rewrite (Rsign_pos x) by done. rewrite (Rsign_pos 10) by lra.
    destruct (Rsign_cases d) as [[? ->] | [[? ->] | [? ->]]]; simpl; [lra | | done].
    rewrite (Rsign_pos 20) by lra. done.
  - simpl. rewrite (Rsign_pos 10) by lra.
    destruct (Rsign_cases d) as [[? ->] | [[? ->] | [? ->]]]; simpl; [lra | | done].
    rewrite (Rsign_pos 20) by lra. done.
Qed.

(** Scenario 2: the mean squared error is 4, and so is the range of the
    ground truth. *)
Lemma scenario2_mse (self : instance) :
  MSEMeasure_apply self scenario2_r scenario2_g = Ok (Fin 4).
Proof.
  unfold MSEMeasure_apply. simpl. unfold Np.mean. simpl.
  rewrite Rsign_pos by lra. do 2 f_equal. lra.
Qed.

Lemma scenario2_value_range : value_range scenario2_g = Ok (Fin 4).
Proof.
  unfold value_range. simpl. do 2 f_equal.
  unfold Rmax, Rmin. repeat destruct (Rle_dec _ _); lra.
Qed.

Lemma four_nonzero : Np.eqb (Fin 4) (Fin 0) = false.
Proof. apply eqb_Fin_false. lra. Qed.

(** [20*log10(4) - 10*log10(4)] is [10*log10(4)], between 6.02 and 6.03:
    [10^602 < 4^1000 < 10^603]. *)
Lemma psnr_value_4_4 :
  ∃ v : R, psnr_value (Fin 4) (Fin 4) = Fin v ∧ 6.02 < v < 6.03.
Proof.
  exists (20 * (ln 4 / ln 10) + - (10 * (ln 4 / ln 10))). split.
  - unfold psnr_value. simpl. by rewrite (Rsign_pos 4) by lra.
  - pose proof ln_10_pos as H10.
    assert (Hlo : 602 * ln 10 < 1000 * ln 4).
    { assert (H : ln (10 ^ 602) < ln (4 ^ 1000)).
      { apply ln_increasing; [apply pow_lt; lra |].
        rewrite !pow_IZR. apply IZR_lt. by vm_compute. }
      rewrite !ln_pow in H by lra.
      rewrite !INR_IZR_INZ in H. exact H. }
    assert (Hhi : 1000 * ln 4 < 603 * ln 10).
    { assert (H : ln (4 ^ 1000) < ln (10 ^ 603)).
      { apply ln_increasing; [apply pow_lt; lra |].
        rewrite !pow_IZR. apply IZR_lt. by vm_compute. }
      rewrite !ln_pow in H by lra.
      rewrite !INR_IZR_INZ in H. exact H. }
    assert (Hq : 20 * (ln 4 / ln 10) + - (10 * (ln 4 / ln 10)) = 10 * ln 4 / ln 10)
      by (field; lra).
    rewrite Hq. split.
    + apply Rmult_lt_reg_r with (ln 10); [done |].
      unfold Rdiv. rewrite Rmult_assoc, Rinv_l by lra. lra.
    + apply Rmult_lt_reg_r with (ln 10); [done |].
      unfold Rdiv. rewrite Rmult_assoc, Rinv_l by lra. lra.
Qed.

(** Scenario 2 itself: with [data_range=4] the result is
    [20*log10(4) - 10*log10(4)]. *)
Lemma scenario2_psnr :
  PSNRMeasure_apply (PSNR_with_data_range (PyInt 4)) scenario2_r scenario2_g
    = Ok (psnr_value (Fin 4) (Fin 4)).
Proof.
  apply (PSNR_apply_configured _ MSE (PyInt 4) _ _ (Fin 4));
    [reflexivity | reflexivity | reflexivity | apply scenario2_mse | apply four_nonzero].
Qed.

End PSNRFacts.

(** C5: the documentation of [PSNRMeasure] promises that a data range given to
    the constructor is the one [apply] uses ([None] alone selects the range of
    the ground truth), and for a non-zero [data_range] that is what happens
    ([PSNR_apply_configured], [scenario2_psnr], [psnr_value_4_4]).  With
    [data_range=0] it is not: on scenario 2's arrays [apply] returns
    [20*log10(4) - 10*log10(4)], computed from the range of the ground truth,
    where the formula on the given data range is [-inf]. *)
Theorem C5_psnr_data_range_zero_not_used :
  MSEMeasure_apply MSE scenario2_r scenario2_g = Ok (Fin 4) ∧
  PSNRMeasure_apply (PSNR_with_data_range (PyInt 0)) scenario2_r scenario2_g
    = Ok (psnr_value (Fin 4) (Fin 4)) ∧
  psnr_value (to_float (PyInt 0)) (Fin 4) = NInf ∧
  psnr_value (Fin 4) (Fin 4) ≠ NInf.
Proof.
  split; [apply scenario2_mse | split; [| split]].
  - rewrite (PSNR_apply_nonzero _ MSE _ _ (Fin 4) (scenario2_mse MSE) four_nonzero).
    rewrite (PSNR_data_range_falsy _ (PyInt 0)) by reflexivity.
    by rewrite scenario2_value_range.
  - unfold psnr_value. simpl.
    rewrite (Rsign_zero 0%R) by reflexivity. rewrite (Rsign_pos 4%R) by lra.
    simpl. by rewrite (Rsign_pos 20%R) by lra.
  - destruct psnr_value_4_4 as (v & -> & _). discriminate.
Qed.

(** Two calls that work with the same finite, non-negative data range, be it
    configured or the range of the ground truths, are ordered against their
    mean squared errors. *)
Lemma psnr_antitone_same_range (self : instance) (r1 g1 r2 g2 : ndarray) (d : R)
    (mse1 mse2 : npfloat) :
  PSNR_data_range self g1 = Ok (Fin d) → PSNR_data_range self g2 = Ok (Fin d) →
  (0 <= d)%R →
  MSEMeasure_apply MSE r1 g1 = Ok mse1 → MSEMeasure_apply MSE r2 g2 = Ok mse2 →
  Np.eqb mse1 (Fin 0) = false → Np.eqb mse2 (Fin 0) = false →
  Np.le mse1 mse2 →
  ∃ v1 v2 : npfloat,
    PSNRMeasure_apply self r1 g1 = Ok v1 ∧ PSNRMeasure_apply self r2 g2 = Ok v2 ∧
    Np.le v2 v1.
Proof.
  intros Hd1 Hd2 Hd Hm1 Hm2 Hz1 Hz2 Hle.
  exists (psnr_value (Fin d) mse1), (psnr_value (Fin d) mse2).
  rewrite (PSNR_apply_nonzero _ _ _ _ _ Hm1 Hz1), Hd1.
  rewrite (PSNR_apply_nonzero _ _ _ _ _ Hm2 Hz2), Hd2.
  split; [done | split; [done |]].
  apply psnr_value_antitone; try done.
  - unfold MSEMeasure_apply in Hm1.
    destruct (Np.sub_arrays r1 g1); simpl in Hm1; [| done | done].
    injection Hm1 as <-. apply mean_square_nonneg.
  - unfold MSEMeasure_apply in Hm2.
    destruct (Np.sub_arrays r2 g2); simpl in Hm2; [| done | done].
    injection Hm2 as <-. apply mean_square_nonneg.
Qed.

(** A configured data range that is a non-zero number is the one used. *)
Lemma PSNR_data_range_configured (self : instance) (v : pynum) (d : R) (g : ndarray) :
  inst_data_range self = Some v → is_numeric v = true → to_float v = Fin d → d ≠ 0%R →
  PSNR_data_range self g = Ok (Fin d).
Proof.
  intros Hv Hnum Hd Hnz. unfold PSNR_data_range, log10_argument. rewrite Hv, Hnum.
  assert (truthy v = true) as ->; [| by rewrite Hd].
  destruct v as [z | x]; simpl in *.
  - injection Hd as <-. destruct (Z.eqb_spec z 0) as [-> | Hne]; [done | reflexivity].
  - subst x. unfold Np.truthy. by rewrite eqb_Fin_false.
Qed.

(** The PSNR formula at data range 1 and error 1 is zero. *)
Lemma psnr_value_1_1 : psnr_value (Fin 1) (Fin 1) = Fin 0.
Proof.
  unfold psnr_value. simpl. rewrite (Rsign_pos 1%R) by lra. simpl.
  rewrite ln_1. f_equal. unfold Rdiv. lra.
Qed.

(** The formula on a data range of zero is [-inf] for every finite, positive
    error. *)
Lemma psnr_value_zero_range (m : R) : (0 < m)%R → psnr_value (Fin 0) (Fin m) = NInf.
Proof.
  intros Hm. unfold psnr_value. simpl.
  rewrite (Rsign_zero 0%R) by reflexivity. rewrite (Rsign_pos m Hm).
  simpl. by rewrite (Rsign_pos 20%R) by lra.
Qed.

(** C7: a data range given to the constructor is, by the documentation of
    [PSNRMeasure], the one [apply] uses, so that for a fixed data range the
    PSNR cannot grow with the error; for a data range that is used this is
    [psnr_antitone_same_range].  With [data_range=0] it is not used, and the
    order fails: the pair [r = [1,2]], [g = [0,1]] has error 1 and the pair of
    scenario 2 has error 4, but [apply] returns 0 for the first (ground truth
    of range 1) and [20*log10(4) - 10*log10(4)], more than 6.02, for the second
    (ground truth of range 4).  The formula on the given data range is [-inf]
    for both. *)
Theorem C7_psnr_zero_data_range_not_antitone :
  MSEMeasure_apply MSE (array_of [1; 2]%R) (array_of [0; 1]%R) = Ok (Fin 1) ∧
  MSEMeasure_apply MSE scenario2_r scenario2_g = Ok (Fin 4) ∧
  Np.le (Fin 1) (Fin 4) ∧
  PSNRMeasure_apply (PSNR_with_data_range (PyInt 0)) (array_of [1; 2]%R)
    (array_of [0; 1]%R) = Ok (Fin 0) ∧
  (∃ v : R,
     PSNRMeasure_apply (PSNR_with_data_range (PyInt 0)) scenario2_r scenario2_g
       = Ok (Fin v) ∧
     (6.02 < v)%R ∧ ¬ Np.le (Fin v) (Fin 0)) ∧
  psnr_value (to_float (PyInt 0)) (Fin 1) = NInf ∧
  psnr_value (to_float (PyInt 0)) (Fin 4) = NInf ∧
  Np.le NInf NInf.
Proof.
  assert (Hmse : MSEMeasure_apply MSE (array_of [1; 2]%R) (array_of [0; 1]%R)
                 = Ok (Fin 1)).
  { unfold MSEMeasure_apply. simpl. unfold Np.mean. simpl.
    rewrite Rsign_pos by lra. do 2 f_equal. lra. }
  assert (Hrange : value_range (array_of [0; 1]%R) = Ok (Fin 1)).
  { unfold value_range. simpl. do 2 f_equal.
    unfold Rmax, Rmin. repeat destruct (Rle_dec _ _); lra. }
  split_and!; [exact Hmse | apply scenario2_mse | simpl; lra | | | | | done].
  - rewrite (PSNR_apply_nonzero _ MSE _ _ (Fin 1) Hmse) by (apply eqb_Fin_false; lra).
    rewrite (PSNR_data_range_falsy _ (PyInt 0)) by reflexivity.
    rewrite Hrange. simpl. by rewrite psnr_value_1_1.
  - destruct psnr_value_4_4 as (v & Hv & Hlo & _). exists v. split_and!.
    + rewrite (PSNR_apply_nonzero _ MSE _ _ (Fin 4) (scenario2_mse MSE) four_nonzero).
      rewrite (PSNR_data_range_falsy _ (PyInt 0)) by reflexivity.
      rewrite scenario2_value_range. simpl. by rewrite Hv.
    + exact Hlo.
    + simpl. lra.
  - apply psnr_value_zero_range. lra.
  - apply psnr_value_zero_range. lra.
Qed.

(** ** The renaming loop *)

Lemma app_ne_self (s x : string) : x ≠ "" → s +:+ x ≠ s.
Proof.
  intros Hx. induction s as [| a s IH]; [done |].
  intros [= H]. by apply IH.
Qed.

Lemma suffixed_ne (name : string) (i : nat) : suffixed name i ≠ name.
Proof. unfold suffixed. apply app_ne_self. discriminate. Qed.

#[local] Instance suffixed_inj (name : string) : Inj (=) (=) (suffixed name).
Proof.
  intros i j H. unfold suffixed, str in H.
  apply (inj (String.app name)) in H. apply (inj (String.app "_")) in H.
  by apply (inj pretty) in H.
Qed.

Lemma first_unused_suffix_unique d name k1 k2 :
  first_unused_suffix d name k1 → first_unused_suffix d name k2 → k1 = k2.
Proof.
  intros (Hk1 & Hfree1 & Hmin1) (Hk2 & Hfree2 & Hmin2).
  destruct (Nat.lt_trichotomy k1 k2) as [Hlt | [Heq | Hgt]]; [| done |].
  - destruct Hfree1. apply Hmin2. lia.
  - destruct Hfree2. apply Hmin1. lia.
Qed.

Lemma first_unused_suffix_insert d name m k :
  first_unused_suffix (<[name := m]> d) name k ↔ first_unused_suffix d name k.
Proof.
  unfold first_unused_suffix. rewrite dom_insert_L.
  pose proof (suffixed_ne name) as Hne.
  split; intros (Hk & Hfree & Hmin); (split; [done | split]).
  - intros Hin. apply Hfree, elem_of_union. by right.
  - intros j Hj.
    specialize (Hmin j Hj).
    apply elem_of_union in Hmin as [Heq%elem_of_singleton | Hin]; [| done].
    by destruct (Hne j).
  - intros [Heq%elem_of_singleton | Hin]%elem_of_union; [by destruct (Hne k) | done].
  - intros j Hj. apply elem_of_union. right. by apply Hmin.
Qed.

(** The loop walks through the suffixes in order and stops at the first one
    that is not a key. *)
Lemma rename_loop_finds (d : gmap string loc) (name : string) (n : nat) :
  ∀ fuel i cur,
    cur ∈ dom d →
    (∀ j, i ≤ j < i + n → suffixed name j ∈ dom d) →
    suffixed name (i + n) ∉ dom d →
    n + 1 < fuel →
    rename_loop fuel d {| name_orig := name; counter := i |} cur
      = Ok (suffixed name (i + n)).
Proof.
  induction n as [| n IH]; intros fuel i cur Hcur Hused Hfree Hfuel.
  - destruct fuel as [| [| fuel]]; [lia | lia |].
    rewrite Nat.add_0_r in Hfree. simpl.
    rewrite decide_True by done. rewrite decide_False by done.
    by rewrite Nat.add_0_r.
  - destruct fuel as [| fuel]; [lia |].
    simpl. rewrite decide_True by done.
    rewrite (IH fuel (S i) (suffixed name i)).
    + f_equal. f_equal. lia.
    + apply Hused. lia.
    + intros j Hj. apply Hused. lia.
    + by replace (S i + n) with (i + S n) by lia.
    + lia.
Qed.

(** Among the first [n] suffixes either one is unused, and then there is a
    first such, or all of them are keys. *)
Lemma scan_suffixes (d : gmap string loc) (name : string) (n : nat) :
  (∃ k, first_unused_suffix d name k ∧ k ≤ n) ∨
  (∀ j, 1 ≤ j ≤ n → suffixed name j ∈ dom d).
Proof.
  induction n as [| n [(k & Hk & Hle) | Hall]].
  - right. intros j Hj. lia.
  - left. exists k. split; [done | lia].
  - destruct (decide (suffixed name (S n) ∈ dom d)) as [Hin | Hout].
    + right. intros j Hj. destruct (decide (j = S n)) as [-> | Hne]; [done |].
      apply Hall. lia.
    + left. exists (S n). split; [| done].
      split; [lia | split; [done |]]. intros j Hj. apply Hall. lia.
Qed.

(** A registry holds finitely many names, so when [name] is taken one of the
    first [size d] suffixes is free. *)
Lemma first_unused_suffix_exists (d : gmap string loc) (name : string) :
  name ∈ dom d → ∃ k, first_unused_suffix d name k ∧ k ≤ size d.
Proof.
  intros Hname.
  destruct (scan_suffixes d name (size d)) as [Hfound | Hall]; [done |].
  exfalso.
  set (l := name :: (suffixed name <$> seq 1 (size d))).
  assert (Hnodup : NoDup l).
  { apply NoDup_cons. split.
    - intros (j & Hj & _)%list_elem_of_fmap. by apply (suffixed_ne name j).
    - apply NoDup_fmap_2; [apply _ | apply NoDup_seq]. }
  assert (Hsub : (list_to_set l : gset string) ⊆ dom d).
  { intros x [-> | (j & -> & Hj)%list_elem_of_fmap]%elem_of_list_to_set%elem_of_cons;
      [done |].
    apply Hall. apply elem_of_seq in Hj. lia. }
  apply subseteq_size in Hsub.
  rewrite size_list_to_set, size_dom in Hsub by done.
  unfold l in Hsub. simpl in Hsub. rewrite length_fmap, length_seq in Hsub. lia.
Qed.

(** ** [Measure.__init__] and the constructor *)

Lemma init_short_name_spec (short_name : option string) (obj obj1 : instance)
    (name : string) :
  init_short_name short_name obj = (obj1, name) →
  attr_short_name obj1 = Some name ∧ inst_class obj1 = inst_class obj ∧
  inst_data_range obj1 = inst_data_range obj ∧ inst_kwargs obj1 = inst_kwargs obj.
Proof.
  unfold init_short_name. destruct short_name as [s |].
  - by intros [= <- <-].
  - destruct (attr_short_name obj) as [s |] eqn:Hattr; by intros [= <- <-].
Qed.

Lemma init_short_name_explicit (s : string) (obj : instance) :
  init_short_name (Some s) obj = (set_short_name s obj, s).
Proof. reflexivity. Qed.

(** Without a collision the name is registered as it is, whatever the fuel. *)
Lemma Measure_init_free fuel short_name self obj obj1 name σ :
  init_short_name short_name obj = (obj1, name) →
  name ∉ dom (measure_dict σ) →
  Measure_init fuel short_name self obj σ = Ok (obj1, register name self σ).
Proof.
  intros Hinit Hfree. unfold Measure_init. rewrite Hinit.
  by rewrite decide_False.
Qed.

(** With a collision, and enough fuel for the loop, the name is replaced by
    the one with the first unused suffix and the rename is reported. *)
Lemma Measure_init_taken fuel short_name self obj obj1 name σ :
  init_short_name short_name obj = (obj1, name) →
  name ∈ dom (measure_dict σ) →
  size (measure_dict σ) < fuel →
  ∃ k, first_unused_suffix (measure_dict σ) name k ∧
    Measure_init fuel short_name self obj σ =
      Ok (set_short_name (suffixed name k) obj1,
          register (suffixed name k) self
            (warn (rename_warning name (suffixed name k)) σ)).
Proof.
  intros Hinit Htaken Hfuel.
  destruct (first_unused_suffix_exists _ _ Htaken) as (k & Hk & Hle).
  exists k. split; [done |].
  unfold Measure_init. rewrite Hinit. rewrite decide_True by done.
  destruct Hk as (Hk1 & Hfree & Hmin).
  unfold gen_unique_name.
  rewrite (rename_loop_finds _ name (k - 1) fuel 1 name); try done.
  - by replace (1 + (k - 1)) with k by lia.
  - intros j Hj. apply Hmin. lia.
  - by replace (1 + (k - 1)) with k by lia.
  - lia.
Qed.

Section Registry.

Variable repr_float : npfloat → string.

(** A well-formed constructor call comes down to [Measure.__init__] on a new
    object of the class, with the short name given or, for a PSNR or SSIM
    measure with a data range, the one derived from it. *)
Lemma construct_unfold (fuel : nat) (cls : pyclass) (args : call_args) (σ : state) :
  accepts cls args →
  ∃ (short_name : option string) (obj0 : instance),
    construct repr_float fuel cls args σ =
      ('(obj, σ') ← Measure_init fuel short_name (length (objects σ)) obj0 σ;
       Ok (length (objects σ), store obj σ')) ∧
    inst_class obj0 = cls ∧ inst_short_name obj0 = None ∧
    inst_data_range obj0 = arg_kwargs args !! "data_range" ∧
    (∀ s, arg_short_name args = Some s → short_name = Some s) ∧
    (arg_short_name args = None → arg_kwargs args !! "data_range" = None →
     short_name = None).
Proof.
  intros [Hconcrete Hkw]. unfold construct.
  destruct (class_apply cls) eqn:Happly; [done | ..];
    (destruct (class_init cls) eqn:Hinit;
     [ rewrite decide_True by done;
       exists (arg_short_name args), (new_instance cls);
       assert (arg_kwargs args !! "data_range" = None) as ->
         by (apply not_elem_of_dom; rewrite Hkw; apply not_elem_of_empty);
       by repeat split
     | rewrite decide_True by done; unfold PSNRMeasure_init; simpl;
       destruct (arg_kwargs args !! "data_range") as [d |] eqn:Hd;
       [ destruct (arg_short_name args) as [s |] eqn:Hs;
         eexists _, _; (split; [reflexivity |]); repeat split; try done;
         by intros ? [= <-]
       | eexists _, _; (split; [reflexivity |]); by repeat split ]
     | unfold SSIMMeasure_init; simpl;
       destruct (arg_kwargs args !! "data_range") as [d |] eqn:Hd;
       [ destruct (arg_short_name args) as [s |] eqn:Hs;
         eexists _, _; (split; [reflexivity |]); repeat split; try done;
         by intros ? [= <-]
       | eexists _, _; (split; [reflexivity |]); by repeat split ] ]).
Qed.


(** What a well-formed constructor call does, given fuel for the loop: it
    returns the address of a new object of the class, registered under a name
    that was free; that name is the requested one if it was free and the one
    with the first unused suffix otherwise, in which case a warning is
    added. *)
Lemma construct_result (fuel : nat) (cls : pyclass) (args : call_args) (σ : state) :
  accepts cls args → size (measure_dict σ) < fuel →
  ∃ (σ' : state) (obj : instance) (name final : string),
    construct repr_float fuel cls args σ = Ok (length (objects σ), σ') ∧
    objects σ' = objects σ ++ [obj] ∧
    measure_dict σ' = <[final := length (objects σ)]> (measure_dict σ) ∧
    warnings σ' = warnings σ ++
      (if decide (name ∈ dom (measure_dict σ)) then [rename_warning name final] else []) ∧
    inst_class obj = cls ∧
    inst_data_range obj = arg_kwargs args !! "data_range" ∧
    attr_short_name obj = Some final ∧
    (final ∉ dom (measure_dict σ)) ∧
    (∀ s, arg_short_name args = Some s → name = s) ∧
    (arg_short_name args = None → arg_kwargs args !! "data_range" = None →
     name = match class_short_name cls with Some s => s | None => class_name cls end) ∧
    (name ∉ dom (measure_dict σ) → final = name) ∧
    (name ∈ dom (measure_dict σ) →
     ∃ k, first_unused_suffix (measure_dict σ) name k ∧ final = suffixed name k).
Proof.
  intros Hacc Hfuel.
  destruct (construct_unfold fuel cls args σ Hacc)
    as (sn & obj0 & -> & Hcls & Hsn0 & Hdr & Hexplicit & Hdefault).
  destruct (init_short_name sn obj0) as [obj1 name] eqn:Hinit.
  destruct (init_short_name_spec _ _ _ _ Hinit) as (Hname & Hcls1 & Hdr1 & _).
  assert (Hrequested :
    (∀ s, arg_short_name args = Some s → name = s) ∧
    (arg_short_name args = None → arg_kwargs args !! "data_range" = None →
     name = match class_short_name cls with Some s => s | None => class_name cls end)).
  { split.
    - intros s Hs. rewrite (Hexplicit s Hs) in Hinit. by injection Hinit as _ <-.
    - intros Hs Hd. rewrite (Hdefault Hs Hd) in Hinit.
      unfold init_short_name, attr_short_name in Hinit.
      rewrite Hsn0, Hcls in Hinit.
      destruct (class_short_name cls); by injection Hinit as _ <-. }
  destruct Hrequested as [Hreq1 Hreq2].
  destruct (decide (name ∈ dom (measure_dict σ))) as [Htaken | Hfree].
  - destruct (Measure_init_taken fuel sn (length (objects σ)) _ _ _ σ Hinit Htaken Hfuel)
      as (k & Hk & ->).
    eexists _, (set_short_name (suffixed name k) obj1), name, (suffixed name k).
    split; [reflexivity |]. simpl. rewrite decide_True by done.
    split_and!; try done; try congruence.
    + apply Hk.
    + intros _. by exists k.
  - rewrite (Measure_init_free fuel sn _ _ _ _ σ Hinit Hfree).
    eexists _, obj1, name, name.
    split; [reflexivity |]. simpl. rewrite decide_False by done.
    split_and!; try done; try congruence.
    by rewrite app_nil_r.
Qed.

(** When the short name is given and free, no fuel is needed. *)
Lemma construct_explicit_free (fuel : nat) (cls : pyclass) (args : call_args)
    (σ : state) (s : string) :
  accepts cls args → arg_short_name args = Some s → s ∉ dom (measure_dict σ) →
  ∃ (σ' : state) (obj : instance),
    construct repr_float fuel cls args σ = Ok (length (objects σ), σ') ∧
    objects σ' = objects σ ++ [obj] ∧
    measure_dict σ' = <[s := length (objects σ)]> (measure_dict σ) ∧
    warnings σ' = warnings σ ∧
    inst_class obj = cls ∧ attr_short_name obj = Some s.
Proof.
  intros Hacc Hs Hfree.
  destruct (construct_unfold fuel cls args σ Hacc)
    as (sn & obj0 & -> & Hcls & _ & _ & Hexplicit & _).
  rewrite (Hexplicit s Hs).
  rewrite (Measure_init_free fuel (Some s) _ _ _ _ σ (init_short_name_explicit s obj0) Hfree).
  eexists _, _. split; [reflexivity |]. by repeat split.
Qed.

(** *** Partial correctness, whatever the fuel *)

Lemma rename_loop_sound (fuel : nat) (d : gmap string loc) (g : generator)
    (cur final : string) :
  rename_loop fuel d g cur = Ok final → final ∉ dom d.
Proof.
  revert g cur. induction fuel as [| fuel IH]; intros g cur; simpl; [done |].
  destruct (decide (cur ∈ dom d)) as [Hin | Hout].
  - apply IH.
  - by intros [= <-].
Qed.

Lemma Measure_init_sound fuel short_name self obj σ obj' σ' :
  Measure_init fuel short_name self obj σ = Ok (obj', σ') →
  ∃ final,
    attr_short_name obj' = Some final ∧ (final ∉ dom (measure_dict σ)) ∧
    measure_dict σ' = <[final := self]> (measure_dict σ) ∧
    objects σ' = objects σ.
Proof.
  unfold Measure_init.
  destruct (init_short_name short_name obj) as [obj1 name] eqn:Hinit.
  destruct (init_short_name_spec _ _ _ _ Hinit) as (Hname & _).
  destruct (decide (name ∈ dom (measure_dict σ))) as [Htaken | Hfree].
  - destruct (rename_loop _ _ _ _) as [final | |] eqn:Hloop; simpl; [| done | done].
    intros [= <- <-]. exists final.
    split_and!; try done. by apply rename_loop_sound in Hloop.
  - intros [= <- <-]. by exists name.
Qed.

Lemma construct_sound fuel cls args σ m σ' :
  construct repr_float fuel cls args σ = Ok (m, σ') →
  ∃ obj final,
    m = length (objects σ) ∧ objects σ' = objects σ ++ [obj] ∧
    measure_dict σ' = <[final := m]> (measure_dict σ) ∧
    (final ∉ dom (measure_dict σ)) ∧ attr_short_name obj = Some final.
Proof.
  unfold construct, PSNRMeasure_init, SSIMMeasure_init.
  destruct (class_apply cls); [done | ..];
    (destruct (class_init cls); repeat case_decide; try done;
     match goal with
     | |- context [Measure_init ?f ?sn ?self ?o ?s] =>
         destruct (Measure_init f sn self o s) as [[obj1 σ1] | |] eqn:Hinit;
         simpl; [| done | done];
         intros [= <- <-];
         destruct (Measure_init_sound _ _ _ _ _ _ _ Hinit)
           as (final & Hname & Hfree & Hdict & Hobjs);
         exists obj1, final; simpl; rewrite Hobjs; by split_and!
     end).
Qed.

(** The agreement of registry and objects is kept by a construction. *)
Lemma registry_ok_step (σ σ' : state) (obj : instance) (final : string) :
  registry_ok σ →
  objects σ' = objects σ ++ [obj] →
  measure_dict σ' = <[final := length (objects σ)]> (measure_dict σ) →
  final ∉ dom (measure_dict σ) →
  attr_short_name obj = Some final →
  registry_ok σ'.
Proof.
  intros [Hdict Hobjs] Hobjects Hmap Hfree Hname. split.
  - intros name m. rewrite Hmap. unfold has_short_name. rewrite Hobjects.
    destruct (decide (final = name)) as [<- | Hne].
    + rewrite lookup_insert_eq. intros [= <-]. exists obj.
      split; [| done]. by apply list_lookup_middle.
    + rewrite lookup_insert_ne by done. intros Hm.
      destruct (Hdict _ _ Hm) as (o & Ho & Hattr). exists o.
      split; [| done]. by apply lookup_app_l_Some.
  - intros m o. rewrite Hobjects, Hmap. intros Hm.
    apply lookup_app_Some in Hm as [Hold | [Hge Hnew]].
    + destruct (Hobjs _ _ Hold) as (name & Hattr & Hname').
      exists name. split; [done |].
      rewrite lookup_insert_ne; [done |].
      intros <-. apply Hfree. apply elem_of_dom. eauto.
    + destruct (m - length (objects σ)) as [| n] eqn:Hdiff; simpl in Hnew; [| done].
      injection Hnew as <-. assert (m = length (objects σ)) as -> by lia.
      exists final. split; [done |]. apply lookup_insert_eq.
Qed.

Lemma registry_ok_unique (σ : state) : registry_ok σ → unique_short_names σ.
Proof.
  intros [_ Hobjs] m1 m2 name (o1 & Ho1 & Hn1) (o2 & Ho2 & Hn2).
  destruct (Hobjs _ _ Ho1) as (n1 & Hn1' & Hm1).
  destruct (Hobjs _ _ Ho2) as (n2 & Hn2' & Hm2).
  congruence.
Qed.

Lemma registry_ok_empty : registry_ok empty_state.
Proof. split; [intros name m | intros m obj]; simpl; by intros ?. Qed.

(** The invariant holds in every state the process reaches. *)
Lemma reachable_registry_ok (σ : state) : reachable repr_float σ → registry_ok σ.
Proof.
  induction 1 as [| σ σ' fuel cls args m _ IH Hc]; [apply registry_ok_empty |].
  destruct (construct_sound _ _ _ _ _ _ Hc) as (obj & final & -> & Hobjs & Hdict & Hfree & Hname).
  by eapply registry_ok_step.
Qed.

(** Importing the module registers the four built-in measures under
    ['l2'], ['mse'], ['psnr'] and ['ssim'], without a warning. *)
Lemma module_state_imported : module_state repr_float = Ok imported.
Proof. reflexivity. Qed.

Lemma imported_reachable : reachable repr_float imported.
Proof.
  pose (σ1 := {| objects := [L2]; measure_dict := <["l2" := 0]> ∅; warnings := [] |}).
  pose (σ2 := {| objects := [L2; MSE];
                 measure_dict := <["mse" := 1]> (<["l2" := 0]> ∅); warnings := [] |}).
  pose (σ3 := {| objects := [L2; MSE; PSNR];
                 measure_dict := <["psnr" := 2]> (<["mse" := 1]> (<["l2" := 0]> ∅));
                 warnings := [] |}).
  apply (reachable_construct _ σ3 imported 0 SSIMMeasure no_args 3); [| reflexivity].
  apply (reachable_construct _ σ2 σ3 0 PSNRMeasure no_args 2); [| reflexivity].
  apply (reachable_construct _ σ1 σ2 0 MSEMeasure no_args 1); [| reflexivity].
  apply (reachable_construct _ empty_state σ1 0 L2Measure no_args 0); [| reflexivity].
  apply reachable_empty.
Qed.

End Registry.

(** ** C1, C2, C3, C9: the registry *)

(** C1: when two measures are constructed with the same explicit short name
    [s], which the registry did not contain, the second one gets [s] with the
    first unused integer suffix ([s_1] when that name is unused), the rename
    is reported by one warning, whose text names the old and the new short
    name, and nothing is raised, and afterwards [get_by_short_name] returns
    the first instance for [s] and the second for the suffixed name. *)
Theorem C1_same_short_name_twice (repr_float : npfloat → string)
    (fuel1 fuel2 : nat) (cls1 cls2 : pyclass) (args1 args2 : call_args)
    (σ : state) (s : string) :
  accepts cls1 args1 → accepts cls2 args2 →
  arg_short_name args1 = Some s → arg_short_name args2 = Some s →
  s ∉ dom (measure_dict σ) →
  S (size (measure_dict σ)) < fuel2 →
  ∃ (m1 m2 : loc) (σ1 σ2 : state) (k : nat),
    construct repr_float fuel1 cls1 args1 σ = Ok (m1, σ1) ∧
    construct repr_float fuel2 cls2 args2 σ1 = Ok (m2, σ2) ∧
    first_unused_suffix (measure_dict σ) s k ∧
    (suffixed s 1 ∉ dom (measure_dict σ) → k = 1) ∧
    has_short_name σ2 m1 s ∧ has_short_name σ2 m2 (suffixed s k) ∧
    suffixed s k = s +:+ "_" +:+ pretty k ∧
    warnings σ1 = warnings σ ∧
    warnings σ2 =
      warnings σ ++
      ["Measure `short_name` '" +:+ s +:+ "' already exists, changed to '" +:+
       (s +:+ "_" +:+ pretty k) +:+ "'"] ∧
    get_by_short_name σ2 s = Some m1 ∧
    get_by_short_name σ2 (suffixed s k) = Some m2 ∧
    m1 ≠ m2.
Proof.
  intros Hacc1 Hacc2 Hs1 Hs2 Hfree Hfuel.
  destruct (construct_explicit_free repr_float fuel1 cls1 args1 σ s Hacc1 Hs1 Hfree)
    as (σ1 & obj1 & Hc1 & Hobjs1 & Hdict1 & Hwarn1 & _ & Hname1).
  assert (Hsize : size (measure_dict σ1) < fuel2).
  { rewrite Hdict1, map_size_insert_None; [done |]. by apply not_elem_of_dom. }
  destruct (construct_result repr_float fuel2 cls2 args2 σ1 Hacc2 Hsize)
    as (σ2 & obj2 & name & final & Hc2 & Hobjs2 & Hdict2 & Hwarn2 & _ & _ & Hname2
        & _ & Hreq & _ & _ & Htaken).
  rewrite (Hreq s Hs2) in *. clear Hreq.
  assert (Hin : s ∈ dom (measure_dict σ1)).
  { rewrite Hdict1, dom_insert_L. apply elem_of_union. left. by apply elem_of_singleton. }
  destruct (Htaken Hin) as (k & Hk & ->).
  rewrite Hdict1 in Hk.
  apply (proj1 (first_unused_suffix_insert _ _ _ _)) in Hk.
  exists (length (objects σ)), (length (objects σ1)), σ1, σ2, k.
  split_and!; try done.
  - intros Hone. destruct Hk as (Hk1 & _ & Hmin).
    destruct (decide (k = 1)) as [-> | Hne]; [done |].
    destruct Hone. apply Hmin. lia.
  - exists obj1. split; [| done].
    rewrite Hobjs2, Hobjs1. apply lookup_app_l_Some. by apply list_lookup_middle.
  - exists obj2. split; [| done]. rewrite Hobjs2. by apply list_lookup_middle.
  - rewrite Hwarn2, Hwarn1. by rewrite decide_True.
  - unfold get_by_short_name. rewrite Hdict2, Hdict1.
    rewrite lookup_insert_ne by apply suffixed_ne. apply lookup_insert_eq.
  - unfold get_by_short_name. rewrite Hdict2. apply lookup_insert_eq.
  - rewrite Hobjs1, length_app. simpl. lia.
Qed.

Lemma C1_same_short_name_twice_witness :
  accepts (plain_subclass "Foo" (λ _ _, Ok (Fin 0))) (with_short_name "foo") ∧
  ("foo" ∉ dom (measure_dict imported)) ∧
  S (size (measure_dict imported)) < 6 ∧
  ∃ (m1 m2 : loc) (σ1 σ2 : state) (k : nat),
    construct (λ _, "") 0 (plain_subclass "Foo" (λ _ _, Ok (Fin 0)))
      (with_short_name "foo") imported = Ok (m1, σ1) ∧
    construct (λ _, "") 6 (plain_subclass "Foo" (λ _ _, Ok (Fin 0)))
      (with_short_name "foo") σ1 = Ok (m2, σ2) ∧
    first_unused_suffix (measure_dict imported) "foo" k ∧
    (suffixed "foo" 1 ∉ dom (measure_dict imported) → k = 1) ∧
    has_short_name σ2 m1 "foo" ∧ has_short_name σ2 m2 (suffixed "foo" k) ∧
    suffixed "foo" k = "foo" +:+ "_" +:+ pretty k ∧
    warnings σ1 = warnings imported ∧
    warnings σ2 =
      warnings imported ++
      ["Measure `short_name` '" +:+ "foo" +:+ "' already exists, changed to '" +:+
       ("foo" +:+ "_" +:+ pretty k) +:+ "'"] ∧
    get_by_short_name σ2 "foo" = Some m1 ∧
    get_by_short_name σ2 (suffixed "foo" k) = Some m2 ∧
    m1 ≠ m2.
Proof.
  assert (Hacc : accepts (plain_subclass "Foo" (λ _ _, Ok (Fin 0)))
                   (with_short_name "foo")).
  { split; [discriminate | apply dom_empty_L]. }
  assert (Hfree : "foo" ∉ dom (measure_dict imported)).
  { apply not_elem_of_dom. reflexivity. }
  assert (Hfuel : S (size (measure_dict imported)) < 6).
  { vm_compute. lia. }
  exact (conj Hacc (conj Hfree (conj Hfuel
    (C1_same_short_name_twice (λ _, "") 0 6 _ _ _ _ imported "foo"
       Hacc Hacc eq_refl eq_refl Hfree Hfuel)))).
Defined.

(** What a class that declares no [short_name] of its own finds as
    [short_name]: the empty string inherited from [Measure], not [None]. *)
Lemma plain_subclass_short_name name apply :
  class_short_name (plain_subclass name apply) = Some "".
Proof. reflexivity. Qed.

(** The test [self.short_name is None] succeeds only for a class that sets
    [short_name = None] itself (or inherits that); only then is the class
    name used. *)
Lemma init_short_name_default (obj : instance) :
  inst_short_name obj = None →
  snd (init_short_name None obj) =
    match class_short_name (inst_class obj) with
    | Some s => s
    | None => class_name (inst_class obj)
    end.
Proof.
  intros Hnone. unfold init_short_name, attr_short_name. rewrite Hnone.
  by destruct (class_short_name (inst_class obj)).
Qed.

(** C2: the docstring of [Measure.__init__] says that without a [short_name]
    argument and without a [short_name] set by the subclass, the [__name__] of
    the subclass is used.  The code tests the inherited class attribute against
    [None], but [Measure] declares it as the empty string: an instance of a
    subclass [MyMeasure] that declares no short name, constructed without
    arguments after the import, is registered under the empty string and not
    under ['MyMeasure']. *)
Theorem C2_subclass_without_short_name (repr_float : npfloat → string) (fuel : nat)
    (apply : ndarray → ndarray → outcome npfloat) :
  ∃ σ' : state,
    construct repr_float fuel (plain_subclass "MyMeasure" apply) no_args imported
      = Ok (4, σ') ∧
    has_short_name σ' 4 "" ∧
    get_by_short_name σ' "" = Some 4 ∧
    get_by_short_name σ' "MyMeasure" = None ∧
    warnings σ' = [].
Proof.
  eexists. split; [reflexivity |].
  split_and!; try reflexivity.
  eexists. split; reflexivity.
Qed.

(** C3: a construction never overwrites a registry entry.  From a state in
    which registry and objects agree, a well-formed constructor call returns a
    new object [m]; every pair registered before is still registered and its
    object unchanged; [m] is inserted under a name that was not a key; and
    registry and objects agree again, so that no two objects share a short
    name. *)
Theorem C3_registry_preserved (repr_float : npfloat → string) (fuel : nat)
    (cls : pyclass) (args : call_args) (σ : state) :
  registry_ok σ → accepts cls args → size (measure_dict σ) < fuel →
  ∃ (m : loc) (σ' : state) (name : string),
    construct repr_float fuel cls args σ = Ok (m, σ') ∧
    (∀ k l, measure_dict σ !! k = Some l →
       measure_dict σ' !! k = Some l ∧ objects σ' !! l = objects σ !! l) ∧
    (name ∉ dom (measure_dict σ)) ∧
    objects σ !! m = None ∧
    measure_dict σ' = <[name := m]> (measure_dict σ) ∧
    has_short_name σ' m name ∧
    registry_ok σ' ∧
    unique_short_names σ'.
Proof.
  intros Hok Hacc Hfuel.
  destruct (construct_result repr_float fuel cls args σ Hacc Hfuel)
    as (σ' & obj & name & final & Hc & Hobjs & Hdict & _ & _ & _ & Hname & Hfree & _).
  assert (Hok' : registry_ok σ') by (by eapply registry_ok_step).
  exists (length (objects σ)), σ', final.
  split_and!; try done.
  - intros k l Hk. split.
    + rewrite Hdict, lookup_insert_ne; [done |].
      intros <-. apply Hfree, elem_of_dom. eauto.
    + destruct (proj1 Hok _ _ Hk) as (o & Ho & _).
      rewrite Hobjs, Ho. by apply lookup_app_l_Some.
  - by apply lookup_ge_None_2.
  - exists obj. split; [| done]. rewrite Hobjs. by apply list_lookup_middle.
  - by apply registry_ok_unique.
Qed.

Lemma C3_registry_preserved_witness :
  registry_ok imported ∧
  accepts PSNRMeasure no_args ∧
  size (measure_dict imported) < 5 ∧
  ∃ (m : loc) (σ' : state) (name : string),
    construct (λ _, "") 5 PSNRMeasure no_args imported = Ok (m, σ') ∧
    (∀ k l, measure_dict imported !! k = Some l →
       measure_dict σ' !! k = Some l ∧ objects σ' !! l = objects imported !! l) ∧
    (name ∉ dom (measure_dict imported)) ∧
    objects imported !! m = None ∧
    measure_dict σ' = <[name := m]> (measure_dict imported) ∧
    has_short_name σ' m name ∧
    registry_ok σ' ∧
    unique_short_names σ'.
Proof.
  assert (Hok : registry_ok imported)
    by apply (reachable_registry_ok (λ _, "")), imported_reachable.
  assert (Hacc : accepts PSNRMeasure no_args).
  { split; [discriminate |]. simpl. rewrite dom_empty_L. apply empty_subseteq. }
  assert (Hfuel : size (measure_dict imported) < 5) by (vm_compute; lia).
  exact (conj Hok (conj Hacc (conj Hfuel
    (C3_registry_preserved (λ _, "") 5 PSNRMeasure no_args imported Hok Hacc Hfuel)))).
Defined.

(** C9: [get_by_short_name] returns [None], and raises nothing, for a name
    that is not a key of the registry, and the registered instance for a name
    that is; when registry and objects agree, as they do in every reachable
    state, an object is found under its short name. *)
Theorem C9_get_by_short_name (σ : state) (s : string) :
  (s ∉ dom (measure_dict σ) → get_by_short_name σ s = None) ∧
  (∀ m, measure_dict σ !! s = Some m → get_by_short_name σ s = Some m) ∧
  (registry_ok σ → ∀ m, has_short_name σ m s → get_by_short_name σ s = Some m).
Proof.
  unfold get_by_short_name. split_and!.
  - intros Hs. by apply not_elem_of_dom.
  - done.
  - intros [_ Hobjs] m (obj & Hobj & Hname).
    destruct (Hobjs _ _ Hobj) as (name & Hname' & Hm). congruence.
Qed.

Lemma C9_get_by_short_name_witness :
  ("never_registered" ∉ dom (measure_dict imported)) ∧
  get_by_short_name imported "never_registered" = None ∧
  measure_dict imported !! "psnr" = Some 2 ∧
  get_by_short_name imported "psnr" = Some 2.
Proof.
  assert (Hfree : "never_registered" ∉ dom (measure_dict imported))
    by (apply not_elem_of_dom; reflexivity).
  assert (Hreg : measure_dict imported !! "psnr" = Some 2) by reflexivity.
  exact (conj Hfree
    (conj (proj1 (C9_get_by_short_name imported "never_registered") Hfree)
    (conj Hreg
      (proj1 (proj2 (C9_get_by_short_name imported "psnr")) 2 Hreg)))).
Defined.

(** ** C8, C10: dispatch, the adapter and the data range *)

(** A PSNR or SSIM measure constructed with [data_range=d] holds [d] as its
    [data_range], of whatever value. *)
Lemma constructed_with_data_range (repr_float : npfloat → string) (fuel : nat)
    (cls : pyclass) (args : call_args) (σ : state) (d : pynum) :
  accepts cls args → size (measure_dict σ) < fuel →
  arg_kwargs args !! "data_range" = Some d →
  ∃ (m : loc) (σ' : state) (obj : instance),
    construct repr_float fuel cls args σ = Ok (m, σ') ∧
    objects σ' !! m = Some obj ∧
    inst_class obj = cls ∧ inst_data_range obj = Some d.
Proof.
  intros Hacc Hfuel Hd.
  destruct (construct_result repr_float fuel cls args σ Hacc Hfuel)
    as (σ' & obj & name & final & Hc & Hobjs & _ & _ & Hcls & Hdr & _).
  exists (length (objects σ)), σ', obj.
  split_and!; try done; [| congruence].
  rewrite Hobjs. by apply list_lookup_middle.
Qed.

Section Dispatch.

Variable structural_similarity : ndarray → ndarray → pynum → kwargs → outcome npfloat.

#[local] Abbreviation Measure_apply := (Measure_apply structural_similarity).
#[local] Abbreviation SSIMMeasure_apply := (SSIMMeasure_apply structural_similarity).

(** odl's side of the adapter: its spaces and the cast to an element. *)
Variable space : Type.
Context `{EqDecision space}.
Variable element : space → array_like space → outcome ndarray.

#[local] Abbreviation Operator_call := (Operator_call structural_similarity element).

(** C8 (amended): for every measure [m], every ground truth [g] that is an
    element of an odl space and every reconstruction [r] that is an element
    of the same space, [m.as_operator_for_fixed_ground_truth(g)] returns an
    operator on that space which, applied to [r], returns what
    [m.apply(r, g)] returns (the same value or the same exception); for an
    instance of one of the built-in classes [L2Measure], [MSEMeasure],
    [PSNRMeasure] and [SSIMMeasure] that is the value of the [apply] of that
    class.  An [x] that is not an element of the space is cast to one first,
    and the operator is [m.apply] on the cast array, or raises
    [OpDomainError] when the cast fails. *)
Theorem C8_operator_for_fixed_ground_truth (m : instance) (sp : space) (g r : ndarray) :
  ∃ op : OperatorForFixedGroundTruth space,
    as_operator_for_fixed_ground_truth m (Element sp g) = Ok op ∧
    domain op = sp ∧ range op = field_of sp ∧
    measure op = m ∧ ground_truth op = Element sp g ∧
    Operator_call op (Element sp r) = Measure_apply m r g ∧
    (inst_class m = L2Measure →
     Operator_call op (Element sp r) = L2Measure_apply m r g) ∧
    (inst_class m = MSEMeasure →
     Operator_call op (Element sp r) = MSEMeasure_apply m r g) ∧
    (inst_class m = PSNRMeasure →
     Operator_call op (Element sp r) = PSNRMeasure_apply m r g) ∧
    (inst_class m = SSIMMeasure →
     Operator_call op (Element sp r) = SSIMMeasure_apply m r g) ∧
    (∀ x : array_like space, contains sp x = false →
       Operator_call op x =
         match element sp x with
         | Ok a => Measure_apply m a g
         | Raise TypeError | Raise ValueError => Raise OpDomainError
         | Raise e => Raise e
         | OutOfFuel => OutOfFuel
         end).
Proof.
  eexists. split; [reflexivity |]. simpl.
  assert (Hin : Operator_call
                  {| domain := sp; range := field_of sp; measure := m;
                     ground_truth := Element sp g |} (Element sp r)
                = Measure_apply m r g).
  { unfold Operator_call. simpl. by rewrite bool_decide_eq_true_2. }
  split_and!; try reflexivity; try exact Hin.
  - intros Hcls. rewrite Hin. unfold Measure_apply.
    by rewrite Hcls.
  - intros Hcls. rewrite Hin. unfold Measure_apply.
    by rewrite Hcls.
  - intros Hcls. rewrite Hin. unfold Measure_apply.
    by rewrite Hcls.
  - intros Hcls. rewrite Hin. unfold Measure_apply.
    by rewrite Hcls.
  - intros x Hout. unfold Operator_call. simpl. rewrite Hout.
    by destruct (element sp x) as [a | [] |].
Qed.


End Dispatch.

(** C8, as stated, fails for a ground truth that is not an element of an odl
    space, such as a plain array: [apply] takes it, but the operator cannot be
    made, since its [__init__] asks the ground truth for its [space]. *)
Lemma C8_plain_ground_truth_counterexample :
  Measure_apply_to (space := unit) (λ _ _ _ _, Ok (Fin 1)) MSE
    (Plain (array_of [0]%R)) (Plain (array_of [1]%R)) = Ok (Fin 1) ∧
  as_operator_for_fixed_ground_truth (space := unit) MSE (Plain (array_of [1]%R))
    = Raise AttributeError.
Proof.
  split; [| reflexivity].
  unfold Measure_apply_to. simpl. apply mse_0_1.
Qed.

Lemma C8_operator_for_fixed_ground_truth_witness :
  inst_class (PSNR_with_data_range (PyInt 4)) = PSNRMeasure ∧
  ∃ op : OperatorForFixedGroundTruth unit,
    as_operator_for_fixed_ground_truth (PSNR_with_data_range (PyInt 4))
      (Element tt scenario2_g) = Ok op ∧
    Operator_call (λ _ _ _ _, Ok (Fin 1)) (λ _ _, Raise TypeError) op
      (Element tt scenario2_r)
    = PSNRMeasure_apply (PSNR_with_data_range (PyInt 4)) scenario2_r scenario2_g.
Proof.
  split; [reflexivity |].
  destruct (C8_operator_for_fixed_ground_truth (λ _ _ _ _, Ok (Fin 1)) unit
              (λ _ _, Raise TypeError) (PSNR_with_data_range (PyInt 4)) tt
              scenario2_g scenario2_r)
    as (op & Hop & _ & _ & _ & _ & _ & _ & _ & Hpsnr & _).
  exists op. split; [exact Hop | exact (Hpsnr eq_refl)].
Defined.


(** * Further properties *)

(** ** X1-X3: L2 and MSE as distances *)

Section Distances.

Open Scope R_scope.

Lemma sum_zeros_sqrt (a : ndarray) :
  Forall (λ x, x = Fin 0) a → Np.linalg_norm a = Fin 0.
Proof.
  intros Hz. unfold Np.linalg_norm.
  rewrite (sum_zeros _ (square_zeros _ Hz)). simpl.
  rewrite (Rsign_zero 0) by reflexivity. by rewrite sqrt_0.
Qed.

(** X1: comparing an array with itself.  The mean squared error is 0 when the
    array is not empty and all its entries are finite and [nan] otherwise; the
    L2 distance is 0 when all entries are finite (also for the empty array) and
    [nan] otherwise. *)
Theorem X1_self_distance (l2 mse : instance) (r : ndarray) :
  MSEMeasure_apply mse r r =
    Ok (match r with
        | [] => NaN
        | _ :: _ => if decide (Forall Np.is_finite r) then Fin 0 else NaN
        end) ∧
  L2Measure_apply l2 r r =
    Ok (if decide (Forall Np.is_finite r) then Fin 0 else NaN).
Proof.
  unfold MSEMeasure_apply, L2Measure_apply.
  rewrite sub_arrays_same_length by reflexivity. simpl. split.
  - destruct r as [| x r]; [by rewrite mse_diag_nan by (by left) |].
    destruct (decide (Forall Np.is_finite (x :: r))) as [Hfin | Hnot].
    + by rewrite mse_diag_zero.
    + by rewrite mse_diag_nan by (by right).
  - destruct (decide (Forall Np.is_finite r)) as [Hfin | Hnot].
    + by rewrite (sum_zeros_sqrt _ (zip_sub_diag_finite r Hfin)).
    + unfold Np.linalg_norm.
      by rewrite (sum_with_NaN _ (zip_sub_diag_not_finite r Hnot)).
Qed.

Lemma square_sub_sym (a b : npfloat) :
  Np.mul (Np.sub a b) (Np.sub a b) = Np.mul (Np.sub b a) (Np.sub b a).
Proof. destruct a, b; try reflexivity. simpl. f_equal. ring. Qed.

Lemma square_zip_sub_sym (r g : ndarray) :
  Np.square (zip_with Np.sub r g) = Np.square (zip_with Np.sub g r).
Proof.
  revert g. induction r as [| x r IH]; intros [| y g]; try reflexivity.
  simpl. by rewrite square_sub_sym, IH.
Qed.

Lemma square_map_sub_sym (x : npfloat) (g : ndarray) :
  Np.square (map (λ y, Np.sub x y) g) = Np.square (map (λ y, Np.sub y x) g).
Proof.
  induction g as [| y g IH]; [reflexivity |].
  simpl. by rewrite square_sub_sym, IH.
Qed.

(** Swapping the operands of the subtraction changes neither whether it
    raises nor the squares of the differences. *)
Lemma square_sub_arrays_sym (r g : ndarray) :
  (d ← Np.sub_arrays r g; Ok (Np.square d)) = (d ← Np.sub_arrays g r; Ok (Np.square d)).
Proof.
  unfold Np.sub_arrays.
  destruct (decide (length r = length g)) as [Hlen | Hlen].
  - rewrite decide_True by done. simpl. by rewrite square_zip_sub_sym.
  - rewrite decide_False by (intros Heq; by apply Hlen).
    destruct r as [| x [| x' r]], g as [| y [| y' g]]; simpl in Hlen; try done;
      cbn -[map Np.square Np.sub]; f_equal;
      first [by rewrite square_map_sub_sym | by rewrite <- square_map_sub_sym].
Qed.

(** X2: on arrays of floats [L2Measure.apply] and [MSEMeasure.apply] are
    symmetric in their two arguments: swapping reconstruction and ground truth
    gives the same value, or the same exception.  (A difference of floats
    and the difference taken the other way round have the same square.) *)
Theorem X2_distance_symmetric (l2 mse : instance) (r g : ndarray) :
  L2Measure_apply l2 r g = L2Measure_apply l2 g r ∧
  MSEMeasure_apply mse r g = MSEMeasure_apply mse g r.
Proof.
  pose proof (square_sub_arrays_sym r g) as Hsym.
  unfold L2Measure_apply, MSEMeasure_apply, Np.linalg_norm.
  destruct (Np.sub_arrays r g) as [d | e |], (Np.sub_arrays g r) as [d' | e' |];
    simpl in *; try done.
  - injection Hsym as ->. done.
  - by injection Hsym as ->.
Qed.

Lemma sqrt_not_negative (a : npfloat) : Np.not_negative (Np.sqrt a).
Proof.
  destruct a as [x | | |]; simpl; try done.
  destruct (Np.Rsign x); simpl; try done; apply sqrt_pos.
Qed.

(** X3: on arrays of floats, whatever their entries, a value returned by
    [L2Measure.apply] or [MSEMeasure.apply] is never a negative number and
    never [-inf]. *)
Theorem X3_distance_not_negative (l2 mse : instance) (r g : ndarray) (v : npfloat) :
  L2Measure_apply l2 r g = Ok v ∨ MSEMeasure_apply mse r g = Ok v →
  Np.not_negative v.
Proof.
  unfold L2Measure_apply, MSEMeasure_apply.
  destruct (Np.sub_arrays r g) as [d | e |]; simpl; [| by intros [|] ..].
  intros [[= <-] | [= <-]].
  - apply sqrt_not_negative.
  - apply mean_square_nonneg.
Qed.

Lemma X3_distance_not_negative_witness :
  (L2Measure_apply L2 (array_of [1; 1; 1]) (array_of [0; 0; 0]) = Ok (Fin (sqrt 3)) ∨
   MSEMeasure_apply MSE (array_of [1; 1; 1]) (array_of [0; 0; 0]) = Ok (Fin (sqrt 3))) ∧
  Np.not_negative (Fin (sqrt 3)).
Proof.
  pose proof (scenario1_l2 L2) as H.
  exact (conj (or_introl H)
    (X3_distance_not_negative L2 MSE _ _ _ (or_introl H))).
Defined.

End Distances.

(** ** X6: a constant ground truth *)

Section ConstantGroundTruth.

Open Scope R_scope.








End ConstantGroundTruth.

(** ** X10-X15: more on construction and the registry *)

Section Construction.

Variable repr_float : npfloat → string.

Lemma construct_prepared (fuel : nat) (cls : pyclass) (args : call_args) (σ : state) :
  accepts cls args →
  construct repr_float fuel cls args σ =
    ('(obj, σ') ← Measure_init fuel (short_name_argument repr_float cls args)
                    (length (objects σ)) (prepared_object cls args) σ;
     Ok (length (objects σ), store obj σ')).
Proof.
  intros [Hconcrete Hkw]. unfold construct, short_name_argument, prepared_object.
  unfold PSNRMeasure_init, SSIMMeasure_init.
  destruct (class_apply cls) eqn:Happly; [done | ..];
    (destruct (class_init cls) eqn:Hinit;
     [ rewrite decide_True by done;
       assert (arg_kwargs args !! "data_range" = None) as ->
         by (apply not_elem_of_dom; rewrite Hkw; apply not_elem_of_empty);
       by destruct (arg_short_name args)
     | rewrite decide_True by done; simpl;
       by destruct (arg_kwargs args !! "data_range"), (arg_short_name args)
     | simpl;
       by destruct (arg_kwargs args !! "data_range"), (arg_short_name args) ]).
Qed.


Variable structural_similarity : ndarray → ndarray → pynum → kwargs → outcome npfloat.


Lemma Measure_init_requested_free fuel short_name self obj σ name :
  snd (init_short_name short_name obj) = name →
  name ∉ dom (measure_dict σ) →
  ∃ obj', Measure_init fuel short_name self obj σ = Ok (obj', register name self σ) ∧
          attr_short_name obj' = Some name.
Proof.
  intros Hname Hfree.
  destruct (init_short_name short_name obj) as [obj1 name1] eqn:Hinit.
  simpl in Hname. subst name1.
  rewrite (Measure_init_free fuel short_name self _ _ _ σ Hinit Hfree).
  exists obj1. split; [done |]. by apply (init_short_name_spec _ _ _ _ Hinit).
Qed.

(** A PSNR or SSIM measure constructed with a data range and no short name is
    registered, when that name is free, under the name derived from the data
    range. *)
Lemma construct_with_data_range_free (fuel : nat) (cls : pyclass) (d : pynum)
    (σ : state) :
  accepts cls (with_data_range d) →
  data_range_short_name repr_float cls d ∉ dom (measure_dict σ) →
  ∃ obj,
    construct repr_float fuel cls (with_data_range d) σ
      = Ok (length (objects σ),
            store obj (register (data_range_short_name repr_float cls d)
                         (length (objects σ)) σ)) ∧
    attr_short_name obj = Some (data_range_short_name repr_float cls d).
Proof.
  intros Hacc Hfree. rewrite (construct_prepared fuel cls _ σ Hacc).
  unfold short_name_argument. simpl. rewrite lookup_singleton_eq.
  destruct (Measure_init_requested_free fuel
              (Some (data_range_short_name repr_float cls d)) (length (objects σ))
              (prepared_object cls (with_data_range d)) σ _ eq_refl Hfree)
    as (obj & -> & Hname).
  by exists obj.
Qed.

End Construction.


Section RegistryGrowth.

Variable repr_float : npfloat → string.

Lemma data_range_short_name_int_inj (cls : pyclass) (z1 z2 : Z) :
  data_range_short_name repr_float cls (PyInt z1)
    = data_range_short_name repr_float cls (PyInt z2) → z1 = z2.
Proof.
  unfold data_range_short_name, format_num. intros H.
  apply (inj (String.app _)) in H. apply (inj (String.app _)) in H.
  by apply (inj pretty) in H.
Qed.

Lemma accepts_with_data_range (cls : pyclass) (d : pynum) :
  cls = PSNRMeasure ∨ cls = SSIMMeasure → accepts cls (with_data_range d).
Proof.
  intros [-> | ->]; (split; [done |]); simpl; [| done].
  rewrite dom_singleton_L. done.
Qed.

(** X11: measures that differ in an integer data range get along.  The name
    derived for [PSNRMeasure(data_range=z)] is ['psnr_data_range'] followed by
    the decimal digits of [z] (['ssim_data_range...'] for SSIM).  Two PSNR, or
    two SSIM, measures constructed one after the other with integer data
    ranges [z1 <> z2] and no short name, in a registry that holds neither
    derived name, are registered under these names: neither is renamed, no
    warning is issued, and both are found under their names. *)
Theorem X11_data_range_variants (fuel1 fuel2 : nat) (cls : pyclass) (z1 z2 : Z)
    (σ : state) :
  cls = PSNRMeasure ∨ cls = SSIMMeasure →
  z1 ≠ z2 →
  data_range_short_name repr_float cls (PyInt z1) ∉ dom (measure_dict σ) →
  data_range_short_name repr_float cls (PyInt z2) ∉ dom (measure_dict σ) →
  data_range_short_name repr_float PSNRMeasure (PyInt z1)
    = "psnr_data_range" +:+ pretty z1 ∧
  data_range_short_name repr_float SSIMMeasure (PyInt z1)
    = "ssim_data_range" +:+ pretty z1 ∧
  ∃ (m1 m2 : loc) (σ1 σ2 : state),
    construct repr_float fuel1 cls (with_data_range (PyInt z1)) σ = Ok (m1, σ1) ∧
    construct repr_float fuel2 cls (with_data_range (PyInt z2)) σ1 = Ok (m2, σ2) ∧
    get_by_short_name σ2 (data_range_short_name repr_float cls (PyInt z1)) = Some m1 ∧
    get_by_short_name σ2 (data_range_short_name repr_float cls (PyInt z2)) = Some m2 ∧
    has_short_name σ2 m1 (data_range_short_name repr_float cls (PyInt z1)) ∧
    has_short_name σ2 m2 (data_range_short_name repr_float cls (PyInt z2)) ∧
    m1 ≠ m2 ∧
    warnings σ2 = warnings σ.
Proof.
  intros Hcls Hz Hfree1 Hfree2.
  split; [reflexivity | split; [reflexivity |]].
  set (n1 := data_range_short_name repr_float cls (PyInt z1)) in *.
  set (n2 := data_range_short_name repr_float cls (PyInt z2)) in *.
  assert (Hn : n1 ≠ n2) by (intros Heq; by apply Hz, (data_range_short_name_int_inj cls)).
  destruct (construct_with_data_range_free repr_float fuel1 cls (PyInt z1) σ
              (accepts_with_data_range cls _ Hcls) Hfree1) as (obj1 & Hc1 & Hname1).
  set (σ1 := store obj1 (register n1 (length (objects σ)) σ)) in *.
  assert (Hfree2' : n2 ∉ dom (measure_dict σ1)).
  { simpl. rewrite dom_insert_L.
    intros [Heq%elem_of_singleton | Hin]%elem_of_union; [by apply Hn | done]. }
  destruct (construct_with_data_range_free repr_float fuel2 cls (PyInt z2) σ1
              (accepts_with_data_range cls _ Hcls) Hfree2') as (obj2 & Hc2 & Hname2).
  eexists _, _, _, _. split; [exact Hc1 |]. split; [exact Hc2 |].
  unfold get_by_short_name, has_short_name. simpl.
  split_and!.
  - rewrite lookup_insert_ne by (intros Heq; by apply Hn). apply lookup_insert_eq.
  - rewrite length_app. simpl. apply lookup_insert_eq.
  - exists obj1. split; [| done]. apply lookup_app_l_Some. by apply list_lookup_middle.
  - exists obj2. split; [| done]. rewrite length_app. simpl.
    apply list_lookup_middle. rewrite length_app. simpl. lia.
  - rewrite length_app. simpl. lia.
  - done.
Qed.

(** One constructor call keeps the entries and the objects there are and
    adds to the warnings. *)
Lemma construct_keeps (fuel : nat) (cls : pyclass) (args : call_args)
    (σ σ' : state) (m : loc) :
  construct repr_float fuel cls args σ = Ok (m, σ') →
  (∀ s l, measure_dict σ !! s = Some l → measure_dict σ' !! s = Some l) ∧
  (∀ l obj, objects σ !! l = Some obj → objects σ' !! l = Some obj) ∧
  size (measure_dict σ') = S (size (measure_dict σ)) ∧
  length (objects σ') = S (length (objects σ)).
Proof.
  intros Hc.
  destruct (construct_sound _ _ _ _ _ _ _ Hc)
    as (obj & final & -> & Hobjs & Hdict & Hfree & Hname).
  rewrite Hobjs, Hdict. split_and!.
  - intros s l Hs. rewrite lookup_insert_ne; [done |].
    intros <-. apply Hfree, elem_of_dom. eauto.
  - intros l o Hl. by apply lookup_app_l_Some.
  - apply map_size_insert_None. by apply not_elem_of_dom.
  - rewrite length_app. simpl. lia.
Qed.

Lemma follows_keeps (σ σ' : state) :
  follows repr_float σ σ' →
  (∀ s l, measure_dict σ !! s = Some l → measure_dict σ' !! s = Some l) ∧
  (∀ l obj, objects σ !! l = Some obj → objects σ' !! l = Some obj).
Proof.
  induction 1 as [| σ1 σ2 fuel cls args m _ [IHd IHo] Hc]; [done |].
  destruct (construct_keeps _ _ _ _ _ _ Hc) as (Hd & Ho & _).
  split; [intros s l Hs; by apply Hd, IHd | intros l o Hl; by apply Ho, IHo].
Qed.

(** X12: once the default short name of a class is registered, every later
    construction of that class without arguments is renamed.  In any state
    that follows, the call (with fuel for the loop) returns an object named
    with the first unused suffix, and issues one warning.  After the import
    this is the case for the four built-in classes: [L2Measure()] never yields
    a second ['l2']. *)
Theorem X12_default_name_taken (fuel : nat) (cls : pyclass) (base : string)
    (σ0 σ : state) :
  accepts cls no_args →
  class_short_name cls = Some base →
  base ∈ dom (measure_dict σ0) →
  follows repr_float σ0 σ →
  size (measure_dict σ) < fuel →
  ∃ (m : loc) (σ' : state) (k : nat),
    construct repr_float fuel cls no_args σ = Ok (m, σ') ∧
    first_unused_suffix (measure_dict σ) base k ∧
    has_short_name σ' m (suffixed base k) ∧
    get_by_short_name σ' (suffixed base k) = Some m ∧
    get_by_short_name σ' base = get_by_short_name σ0 base ∧
    warnings σ' = warnings σ ++ [rename_warning base (suffixed base k)].
Proof.
  intros Hacc Hbase Htaken0 Hfollows Hfuel.
  apply elem_of_dom in Htaken0 as [l0 Hl0].
  pose proof (proj1 (follows_keeps _ _ Hfollows) _ _ Hl0) as Hl.
  assert (Htaken : base ∈ dom (measure_dict σ)) by (apply elem_of_dom; eauto).
  destruct (construct_result repr_float fuel cls no_args σ Hacc Hfuel)
    as (σ' & obj & name & final & Hc & Hobjs & Hdict & Hwarn & _ & _ & Hname
        & _ & _ & Hdefault & _ & Hrename).
  rewrite (Hdefault eq_refl (lookup_empty _)), Hbase in *.
  destruct (Hrename Htaken) as (k & Hk & ->).
  exists (length (objects σ)), σ', k. split_and!; try done.
  - exists obj. split; [| done]. rewrite Hobjs. by apply list_lookup_middle.
  - unfold get_by_short_name. rewrite Hdict. apply lookup_insert_eq.
  - unfold get_by_short_name. rewrite Hdict, Hl0.
    rewrite lookup_insert_ne by apply suffixed_ne. done.
  - rewrite Hwarn. by rewrite decide_True.
Qed.

(** X13: the registry only grows.  In every state that follows a state [σ],
    each name registered in [σ] still leads to the same instance, each object
    is unchanged, and when registry and objects agreed in [σ] they still do. *)
Theorem X13_entries_persist (σ σ' : state) :
  follows repr_float σ σ' →
  (∀ s m, get_by_short_name σ s = Some m → get_by_short_name σ' s = Some m) ∧
  (∀ m obj, objects σ !! m = Some obj → objects σ' !! m = Some obj) ∧
  (∀ m s, has_short_name σ m s → has_short_name σ' m s) ∧
  (registry_ok σ → registry_ok σ').
Proof.
  intros Hfollows.
  destruct (follows_keeps _ _ Hfollows) as [Hd Ho].
  split_and!; try done.
  - intros m s (obj & Hobj & Hname). exists obj. split; [by apply Ho | done].
  - clear Hd Ho. induction Hfollows as [| σ1 σ2 fuel cls args m _ IH Hc]; [done |].
    intros Hok. specialize (IH Hok).
    destruct (construct_sound _ _ _ _ _ _ _ Hc)
      as (obj & final & -> & Hobjs & Hdict & Hfree & Hname).
    exact (registry_ok_step σ1 σ2 obj final IH Hobjs Hdict Hfree Hname).
Qed.

(** X14: nothing is ever taken out of the registry.  Each successful
    constructor call adds exactly one entry, and in every reachable state the
    registry has as many entries as measures were constructed. *)
Theorem X14_registry_size :
  (∀ fuel cls args σ m σ',
     construct repr_float fuel cls args σ = Ok (m, σ') →
     size (measure_dict σ') = S (size (measure_dict σ))) ∧
  (∀ σ, reachable repr_float σ → size (measure_dict σ) = length (objects σ)).
Proof.
  split.
  - intros fuel cls args σ m σ' Hc. by apply (construct_keeps _ _ _ _ _ _ Hc).
  - induction 1 as [| σ σ' fuel cls args m _ IH Hc]; [done |].
    destruct (construct_keeps _ _ _ _ _ _ Hc) as (_ & _ & -> & ->). by rewrite IH.
Qed.



End RegistryGrowth.

Lemma second_l2 (repr_float : npfloat → string) :
  construct repr_float 5 L2Measure no_args imported = Ok (4, imported_and_l2).
Proof. reflexivity. Qed.

Lemma X11_data_range_variants_witness :
  (PSNRMeasure = PSNRMeasure ∨ PSNRMeasure = SSIMMeasure) ∧
  (1 ≠ 255)%Z ∧
  (data_range_short_name (λ _, "") PSNRMeasure (PyInt 1) ∉ dom (measure_dict imported)) ∧
  (data_range_short_name (λ _, "") PSNRMeasure (PyInt 255) ∉ dom (measure_dict imported)) ∧
  data_range_short_name (λ _, "") PSNRMeasure (PyInt 1) = "psnr_data_range" +:+ pretty 1%Z ∧
  data_range_short_name (λ _, "") SSIMMeasure (PyInt 1) = "ssim_data_range" +:+ pretty 1%Z ∧
  ∃ (m1 m2 : loc) (σ1 σ2 : state),
    construct (λ _, "") 0 PSNRMeasure (with_data_range (PyInt 1)) imported = Ok (m1, σ1) ∧
    construct (λ _, "") 0 PSNRMeasure (with_data_range (PyInt 255)) σ1 = Ok (m2, σ2) ∧
    get_by_short_name σ2 (data_range_short_name (λ _, "") PSNRMeasure (PyInt 1)) = Some m1 ∧
    get_by_short_name σ2 (data_range_short_name (λ _, "") PSNRMeasure (PyInt 255)) = Some m2 ∧
    has_short_name σ2 m1 (data_range_short_name (λ _, "") PSNRMeasure (PyInt 1)) ∧
    has_short_name σ2 m2 (data_range_short_name (λ _, "") PSNRMeasure (PyInt 255)) ∧
    m1 ≠ m2 ∧
    warnings σ2 = warnings imported.
Proof.
  assert (H0 : PSNRMeasure = PSNRMeasure ∨ PSNRMeasure = SSIMMeasure) by (by left).
  assert (Hz : (1 ≠ 255)%Z) by lia.
  assert (H1 : data_range_short_name (λ _, "") PSNRMeasure (PyInt 1)
               ∉ dom (measure_dict imported)) by (apply not_elem_of_dom; reflexivity).
  assert (H2 : data_range_short_name (λ _, "") PSNRMeasure (PyInt 255)
               ∉ dom (measure_dict imported)) by (apply not_elem_of_dom; reflexivity).
  exact (conj H0 (conj Hz (conj H1 (conj H2
    (X11_data_range_variants (λ _, "") 0 0 PSNRMeasure 1 255 imported H0 Hz H1 H2))))).
Defined.

Lemma X12_default_name_taken_witness :
  accepts L2Measure no_args ∧
  class_short_name L2Measure = Some "l2" ∧
  "l2" ∈ dom (measure_dict imported) ∧
  follows (λ _, "") imported imported_and_l2 ∧
  size (measure_dict imported_and_l2) < 6 ∧
  ∃ (m : loc) (σ' : state) (k : nat),
    construct (λ _, "") 6 L2Measure no_args imported_and_l2 = Ok (m, σ') ∧
    first_unused_suffix (measure_dict imported_and_l2) "l2" k ∧
    has_short_name σ' m (suffixed "l2" k) ∧
    get_by_short_name σ' (suffixed "l2" k) = Some m ∧
    get_by_short_name σ' "l2" = get_by_short_name imported "l2" ∧
    warnings σ' = warnings imported_and_l2 ++ [rename_warning "l2" (suffixed "l2" k)].
Proof.
  assert (Hacc : accepts L2Measure no_args) by (split; [done | apply dom_empty_L]).
  assert (Hin : "l2" ∈ dom (measure_dict imported)) by (apply elem_of_dom; by eexists).
  assert (Hf : follows (λ _, "") imported imported_and_l2).
  { eapply follows_construct; [apply follows_refl | apply second_l2]. }
  assert (Hfuel : size (measure_dict imported_and_l2) < 6) by (vm_compute; lia).
  exact (conj Hacc (conj eq_refl (conj Hin (conj Hf (conj Hfuel
    (X12_default_name_taken (λ _, "") 6 L2Measure "l2" imported imported_and_l2
       Hacc eq_refl Hin Hf Hfuel)))))).
Defined.

Lemma X13_entries_persist_witness :
  follows (λ _, "") imported imported_and_l2 ∧
  get_by_short_name imported "psnr" = Some 2 ∧
  get_by_short_name imported_and_l2 "psnr" = Some 2.
Proof.
  assert (Hf : follows (λ _, "") imported imported_and_l2).
  { eapply follows_construct; [apply follows_refl | apply second_l2]. }
  exact (conj Hf (conj eq_refl
    (proj1 (X13_entries_persist (λ _, "") imported imported_and_l2 Hf) "psnr" 2 eq_refl))).
Defined.

Lemma X14_registry_size_witness :
  construct (λ _, "") 5 L2Measure no_args imported = Ok (4, imported_and_l2) ∧
  size (measure_dict imported_and_l2) = S (size (measure_dict imported)) ∧
  reachable (λ _, "") imported ∧
  size (measure_dict imported) = length (objects imported).
Proof.
  exact (conj (second_l2 _)
    (conj (proj1 (X14_registry_size (λ _, "")) _ _ _ _ _ _ (second_l2 _))
    (conj (imported_reachable _)
      (proj2 (X14_registry_size (λ _, "")) _ (imported_reachable _))))).
Defined.


(** ** X16-X20: the LIDC-IDRI images *)

Section Images.

Open Scope R_scope.

(** Every entry of the array made for a file, in closed form. *)
Lemma image_array_entry (normalize : bool) (dataset : dicom) (noise : nat → nat → R)
    (i j : nat) :
  entry (image_array normalize dataset noise) i j =
    if normalize
    then Fin (Rmin (Rmax ((hounsfield dataset i j + noise i j + 1024) / 3071) 0) 1)
    else Fin (Rmin (Rmax (hounsfield dataset i j + noise i j) (-1024)) 3072).
Proof.
  unfold image_array, hounsfield. destruct normalize; simpl.
  - rewrite (Rsign_pos MAX_VAL) by (unfold MAX_VAL; lra).
    unfold np_clip. simpl. do 3 f_equal. unfold MIN_VAL, MAX_VAL. lra.
  - reflexivity.
Qed.

Lemma image_array_shape (normalize : bool) (dataset : dicom) (noise : nat → nat → R) :
  shape (image_array normalize dataset noise)
    = (snd (shape (pixel_array dataset)) - 150, fst (shape (pixel_array dataset)) - 150)%nat.
Proof. unfold image_array. by destruct normalize. Qed.

(** X16: the geometry of an image.  The array made from a DICOM file with a
    pixel array of [rows x columns] entries has shape
    [(columns - 150, rows - 150)], so a 512 x 512 slice gives the 362 x 362 of
    the dataset; its entry [(i, j)] is computed from the pixel
    [(j + 75, i + 75)] of the file (the slice is cropped by 75 pixels on every
    side and transposed), rescaled by slope and intercept, plus the noise
    drawn for [(i, j)], and then clipped: to [-1024, 3072] when not
    normalizing, and after adding 1024 and dividing by 3071 to [0, 1] when
    normalizing. *)
Theorem X16_image_geometry (normalize : bool) (dataset : dicom)
    (noise : nat → nat → R) :
  shape (image_array normalize dataset noise)
    = (snd (shape (pixel_array dataset)) - 150, fst (shape (pixel_array dataset)) - 150)%nat ∧
  (shape (pixel_array dataset) = (512, 512)%nat →
   shape (image_array normalize dataset noise) = (362, 362)%nat) ∧
  (∀ i j,
     entry (image_array normalize dataset noise) i j =
       let hu :=
         IZR (entry (pixel_array dataset) (j + 75) (i + 75)) * RescaleSlope dataset
         + RescaleIntercept dataset in
       if normalize
       then Fin (Rmin (Rmax ((hu + noise i j + 1024) / 3071) 0) 1)
       else Fin (Rmin (Rmax (hu + noise i j) (-1024)) 3072)).
Proof.
  split_and!.
  - apply image_array_shape.
  - intros Hshape. by rewrite image_array_shape, Hshape.
  - intros i j. apply image_array_entry.
Qed.

Lemma Rmin_Rmax_bounds (x lo hi : R) : lo <= hi → lo <= Rmin (Rmax x lo) hi <= hi.
Proof.
  intros Hle. unfold Rmin, Rmax. repeat destruct (Rle_dec _ _); lra.
Qed.

(** X17: the values of an image.  Whatever the file holds and whatever noise
    is drawn, every entry of the array is a number: one in [0, 1] when
    normalizing, one in [-1024, 3072] when not. *)
Theorem X17_image_values (normalize : bool) (dataset : dicom)
    (noise : nat → nat → R) (i j : nat) :
  ∃ v : R,
    entry (image_array normalize dataset noise) i j = Fin v ∧
    if normalize then 0 <= v <= 1 else -1024 <= v <= 3072.
Proof.
  rewrite image_array_entry. destruct normalize; eexists; (split; [reflexivity |]);
    apply Rmin_Rmax_bounds; lra.
Qed.

(** X18: without normalization a value inside the documented range is kept.
    For a pixel whose rescaled value lies in [-1024, 3071] and a noise in
    [0, 1), the entry is the rescaled value plus the noise: the clipping does
    not touch it. *)
Theorem X18_unnormalized_values (dataset : dicom) (noise : nat → nat → R) (i j : nat) :
  -1024 <= hounsfield dataset i j <= 3071 → 0 <= noise i j < 1 →
  entry (image_array false dataset noise) i j
    = Fin (hounsfield dataset i j + noise i j).
Proof.
  intros Hhu Hu. rewrite image_array_entry. f_equal.
  unfold Rmin, Rmax. repeat destruct (Rle_dec _ _); lra.
Qed.

(** X19: the normalization as it is computed.  The value, rescaled and with
    its noise, is shifted by 1024 and divided by 3071 ([MAX_VAL]), and clipped
    to [0, 1]: from -1024 up to 2047 the clipping does not touch the quotient,
    and from 2047 upwards the entry is 1. *)
Theorem X19_normalized_values (dataset : dicom) (noise : nat → nat → R) (i j : nat) :
  (-1024 <= hounsfield dataset i j + noise i j <= 2047 →
   entry (image_array true dataset noise) i j
     = Fin ((hounsfield dataset i j + noise i j + 1024) / 3071)) ∧
  (2047 <= hounsfield dataset i j + noise i j →
   entry (image_array true dataset noise) i j = Fin 1).
Proof.
  rewrite image_array_entry.
  set (x := hounsfield dataset i j + noise i j) in *.
  split.
  - intros [Hlo Hhi].
    assert (Hnn : 0 <= (x + 1024) / 3071).
    { apply Rmult_le_pos; [lra |]. left. apply Rinv_0_lt_compat. lra. }
    assert (Hle : (x + 1024) / 3071 <= 1).
    { apply (Rmult_le_reg_r 3071); [lra |].
      unfold Rdiv. rewrite Rmult_assoc, Rinv_l by lra. lra. }
    f_equal. unfold Rmin, Rmax. repeat destruct (Rle_dec _ _); lra.
  - intros Hhi.
    assert (Hge : 1 <= (x + 1024) / 3071).
    { apply (Rmult_le_reg_r 3071); [lra |].
      unfold Rdiv. rewrite Rmult_assoc, Rinv_l by lra. lra. }
    f_equal. unfold Rmin, Rmax. repeat destruct (Rle_dec _ _); lra.
Qed.

End Images.

Lemma X16_image_geometry_witness :
  shape (pixel_array (flat_slice 1024)) = (512, 512) ∧
  shape (image_array true (flat_slice 1024) (λ _ _, 0.5%R)) = (362, 362).
Proof.
  split; [reflexivity |].
  apply (proj1 (proj2 (X16_image_geometry true (flat_slice 1024) (λ _ _, 0.5%R)))).
  reflexivity.
Defined.

Lemma X18_unnormalized_values_witness :
  (-1024 <= hounsfield (flat_slice 1024) 0 0 <= 3071)%R ∧
  (0 <= 0.5 < 1)%R ∧
  entry (image_array false (flat_slice 1024) (λ _ _, 0.5%R)) 0 0
    = Fin (hounsfield (flat_slice 1024) 0 0 + 0.5).
Proof.
  assert (Hhu : (-1024 <= hounsfield (flat_slice 1024) 0 0 <= 3071)%R)
    by (unfold hounsfield; simpl; lra).
  assert (Hu : (0 <= 0.5 < 1)%R) by lra.
  exact (conj Hhu (conj Hu
    (X18_unnormalized_values (flat_slice 1024) (λ _ _, 0.5%R) 0 0 Hhu Hu))).
Defined.

Lemma X19_normalized_values_witness :
  (-1024 <= hounsfield (flat_slice 1024) 0 0 + 0.5 <= 2047)%R ∧
  entry (image_array true (flat_slice 1024) (λ _ _, 0.5%R)) 0 0
    = Fin ((hounsfield (flat_slice 1024) 0 0 + 0.5 + 1024) / 3071).
Proof.
  assert (H : (-1024 <= hounsfield (flat_slice 1024) 0 0 + 0.5 <= 2047)%R)
    by (unfold hounsfield; simpl; lra).
  exact (conj H
    (proj1 (X19_normalized_values (flat_slice 1024) (λ _ _, 0.5%R) 0 0) H)).
Defined.

Section Generator.

Variable data_path_join : string → string.
Variable dcmread : string → option dicom.
Variable random_state : Type.
Variable RandomState : Z → random_state.
Variable uniform : random_state → nat * nat → (nat → nat → R) * random_state.
Variable space : Type.
Variable uniform_discr : list R → list R → nat * nat → space.
Variable image : Type.
Variable element : space → array2d npfloat → option image.

#[local] Abbreviation dataset := (LIDCIDRIDivalDataset space).
#[local] Abbreviation generator_loop :=
  (generator_loop data_path_join dcmread random_state uniform space image element).
#[local] Abbreviation run_generator :=
  (LIDCIDRIDivalDataset_generator data_path_join dcmread random_state RandomState
     uniform space image element).

(** The loop yields at most one image per file and ends without an
    exception exactly when it has yielded one for each. *)
Lemma generator_loop_count (self : dataset) (dcm_files : list string) :
  ∀ r : random_state,
    length (generator_loop self r dcm_files).1 ≤ length dcm_files ∧
    ((generator_loop self r dcm_files).2 = None
       ↔ length (generator_loop self r dcm_files).1 = length dcm_files).
Proof.
  induction dcm_files as [| f rest IH]; intros r; [done |].
  simpl. destruct (dcmread (data_path_join f)) as [ds |]; simpl; [| split; [lia | done]].
  destruct (uniform r _) as [noise r'].
  destruct (element _ _) as [img |]; simpl; [| split; [lia | done]].
  specialize (IH r').
  destruct (generator_loop self r' rest) as [images e]. simpl in *.
  destruct IH as [Hle Hiff]. split; [lia |].
  rewrite Hiff. split; [by intros -> | by intros [= ->]].
Qed.

(** X20: how many images the generator yields.  For a part that is not in the
    file list it raises [KeyError] before yielding anything.  For a part that
    is, it yields at most one image per listed file and ends without an
    exception exactly when it has yielded one for every file; for a dataset
    set up by [__init__], a run over ['train'], ['validation'] or ['test'] that
    ends without an exception has yielded [train_len], [validation_len] or
    [test_len] images. *)
Theorem X20_generator_count (self : dataset) (part : string) :
  (dcm_files_dict space self !! part = None →
   run_generator self part = ([], Some (KeyError part))) ∧
  (∀ dcm_files, dcm_files_dict space self !! part = Some dcm_files →
     length (run_generator self part).1 ≤ length dcm_files ∧
     ((run_generator self part).2 = None
        ↔ length (run_generator self part).1 = length dcm_files)) ∧
  (∀ normalize min_pt max_pt file_list,
     LIDCIDRIDivalDataset_init space uniform_discr normalize min_pt max_pt file_list
       = inr self →
     (run_generator self part).2 = None →
     (part = "train" → length (run_generator self part).1 = train_len space self) ∧
     (part = "validation" →
      length (run_generator self part).1 = validation_len space self) ∧
     (part = "test" → length (run_generator self part).1 = test_len space self)).
Proof.
  unfold LIDCIDRIDivalDataset_generator. split_and!.
  - by intros ->.
  - intros dcm_files ->. apply generator_loop_count.
  - intros normalize min_pt max_pt file_list Hinit Hend.
    unfold LIDCIDRIDivalDataset_init in Hinit.
    destruct (file_list !! "train") as [train |] eqn:Htrain; [| done].
    destruct (file_list !! "validation") as [validation |] eqn:Hval; [| done].
    destruct (file_list !! "test") as [test |] eqn:Htest; [| done].
    injection Hinit as <-. simpl in *.
    split_and!; intros ->.
    + rewrite Htrain in *. by apply generator_loop_count.
    + rewrite Hval in *. by apply generator_loop_count.
    + rewrite Htest in *. by apply generator_loop_count.
Qed.

End Generator.

Lemma X20_generator_count_witness :
  dcm_files_dict unit example_dataset !! "train" = Some ["a.dcm"; "b.dcm"] ∧
  length (LIDCIDRIDivalDataset_generator (λ f, f) (λ _, Some (flat_slice 1024))
            unit (λ _, tt) (λ r _, (λ _ _, 0.5%R, r)) unit (array2d npfloat)
            (λ _ a, Some a) example_dataset "train").1 ≤ 2.
Proof.
  split; [reflexivity |].
  apply (proj1 (proj2 (X20_generator_count (λ f, f) (λ _, Some (flat_slice 1024))
           unit (λ _, tt) (λ r _, (λ _ _, 0.5%R, r)) unit (λ _ _ _, tt)
           (array2d npfloat) (λ _ a, Some a) example_dataset "train"))
         ["a.dcm"; "b.dcm"]).
  reflexivity.
Defined.

(** ** X21, X22: the name generator, empty images *)

(** X21: what [gen_unique_name] yields.  The value of the [n]-th [next], counted
    from 0, is the original name followed by ['_'] and the decimal digits of
    [n + 1]; no two values yielded are equal and none is the original name. *)
Theorem X21_gen_unique_name (name : string) :
  (∀ n, (next (Nat.iter n (λ g, (next g).2) (gen_unique_name name))).1
          = name +:+ "_" +:+ pretty (S n)) ∧
  (∀ i j, suffixed name i = suffixed name j → i = j) ∧
  (∀ i, suffixed name i ≠ name).
Proof.
  split_and!.
  - intros n.
    assert (Hiter : Nat.iter n (λ g, (next g).2) (gen_unique_name name)
                    = {| name_orig := name; counter := S n |}).
    { induction n as [| n IH]; [reflexivity |]. by rewrite Nat.iter_succ, IH. }
    by rewrite Hiter.
  - intros i j. apply suffixed_inj.
  - apply suffixed_ne.
Qed.

Lemma X21_gen_unique_name_witness :
  (next (Nat.iter 2 (λ g, (next g).2) (gen_unique_name "foo"))).1 = "foo_3" ∧
  suffixed "foo" 1 ≠ "foo".
Proof.
  split.
  - apply (proj1 (X21_gen_unique_name "foo") 2).
  - apply (proj2 (proj2 (X21_gen_unique_name "foo")) 1).
Defined.

(** X22: [PSNRMeasure.apply] on images without entries.  The mean of the empty
    array is [nan], which is not zero, so the zero branch is not taken: a
    measure with a non-zero configured data range returns [nan] (or raises
    the [TypeError] of [np.log10] on an [int] that numpy does not take as a
    number), and one without (or with a zero one) raises the [ValueError] of
    [np.max] on the empty ground truth. *)
Theorem X22_psnr_empty (self : instance) :
  PSNRMeasure_apply self [] [] =
    match inst_data_range self with
    | Some d =>
        if truthy d
        then if is_numeric d then Ok NaN else Raise TypeError
        else Raise ValueError
    | None => Raise ValueError
    end.
Proof.
  unfold PSNRMeasure_apply. simpl. unfold Np.mean. simpl.
  rewrite (Rsign_zero 0%R) by reflexivity. simpl.
  unfold PSNR_data_range, log10_argument.
  destruct (inst_data_range self) as [d |]; [| done].
  destruct (truthy d); [| done].
  destruct (is_numeric d); [| done]. simpl. by rewrite psnr_value_nan_r.
Qed.
